(** * Authentication layer of the Describo backend

    Shallow embedding of
      - [app/core/security.py]   ([get_jwks], [verify_token]),
      - [app/api/deps.py]        ([get_current_user]),
      - [app/api/endpoints/webnooks.py] ([stripe_webhook]),
    together with the parts of the Python runtime and of the PyJWT,
    requests and Stripe client libraries these functions call.

    Conventions.
    - A Python [str] or [bytes] value is a Rocq [string]: one [ascii] per
      byte.  Header values reach the application decoded as Latin-1, so a
      header is exactly one character per byte; configuration strings and
      request bodies are held as their UTF-8 bytes.
    - Clock readings ([time.time()]) are rationals: every finite float is
      one.
    - An exception is a value of [exn]; a Python function is a Rocq
      function into [result]. *)

From Stdlib Require Import ZArith QArith Qround List String Ascii Bool Lia Lqa.
From Stdlib Require Import DecimalString.
Import ListNotations.

Open Scope string_scope.
Open Scope Z_scope.

Set Warnings "-register-all".

(** ** Python values *)

(** The values that JSON decoding produces, which is all that token
    claims, JWKS documents and Stripe events are made of. *)
Inductive pyval : Type :=
| PNone
| PBool (b : bool)
| PInt (z : Z)
| PFloat (q : Q)
| PStr (s : string)
| PList (l : list pyval)
| PDict (d : list (string * pyval)).

Abbreviation pydict := (list (string * pyval)).

(** [bool(v)]: what [if v] and [not v] test. *)
Definition truthy (v : pyval) : bool :=
  match v with
  | PNone => false
  | PBool b => b
  | PInt z => negb (z =? 0)
  | PFloat q => negb (Qeq_bool q 0)
  | PStr s => negb (s =? "")%string
  | PList l => match l with [] => false | _ :: _ => true end
  | PDict d => match d with [] => false | _ :: _ => true end
  end.

(** [d.get(k)] on the entries of a dict, [None] (Rocq) when [k] is absent. *)
Fixpoint dict_lookup (k : string) (d : pydict) : option pyval :=
  match d with
  | [] => None
  | (k', v) :: rest => if (k' =? k)%string then Some v else dict_lookup k rest
  end.

(** [d.get(k)] and [d.get(k, dflt)]. *)
Definition dict_get (k : string) (d : pydict) : pyval :=
  match dict_lookup k d with Some v => v | None => PNone end.

Definition dict_get_default (k : string) (dflt : pyval) (d : pydict) : pyval :=
  match dict_lookup k d with Some v => v | None => dflt end.

(** ** Exceptions *)

(** The exception classes that the three modules raise or let through.
    [InvalidTokenError] stands for [jwt.InvalidTokenError] and all of its
    subclasses except [ExpiredSignatureError], which has its own handler
    in the code; [InvalidKeyError] is a [PyJWTError] outside that family. *)
Inductive exn : Type :=
| HTTPException (status_code : Z) (detail : string)
| AuthenticationError (message : string)
| ExpiredSignatureError (msg : string)
| InvalidTokenError (msg : string)
| InvalidKeyError (msg : string)
| RequestException (msg : string)
| SignatureVerificationError (msg : string)
| KeyError (key : string)
| TypeError (msg : string)
| ValueError (msg : string)
| IndexError (msg : string)
| AttributeError (msg : string)
| RuntimeError (msg : string).

(** [isinstance(e, ValueError)]: [UnicodeDecodeError] and
    [json.JSONDecodeError] are raised here as [ValueError]. *)
Definition is_value_error (e : exn) : bool :=
  match e with ValueError _ => true | _ => false end.

(** The status of the HTTP response for an exception that leaves a route
    or a dependency ([app/main.py] and [app/core/exceptions.py]):
    [HTTPException] keeps its status code, a [DescriboException] carries
    its own ([AuthenticationError] is built with 401), everything else
    falls to [general_exception_handler]. *)
Definition response_status (e : exn) : Z :=
  match e with
  | HTTPException sc _ => sc
  | AuthenticationError _ => 401
  | _ => 500
  end.

Inductive result (A : Type) : Type :=
| Return (a : A)
| Raise (e : exn).
Arguments Return {A} a.
Arguments Raise {A} e.

Definition bind {A B : Type} (c : result A) (k : A -> result B) : result B :=
  match c with
  | Return a => k a
  | Raise e => Raise e
  end.

Declare Scope py_scope.
Delimit Scope py_scope with py.
Notation "x <- c ;; k" := (bind c (fun x => k))
  (at level 100, c at next level, right associativity) : py_scope.
Notation "c ;;; k" := (bind c (fun _ => k))
  (at level 100, right associativity) : py_scope.
Open Scope py_scope.

(** [try: c  except ...: h], where [h e] is [None] when no clause matches
    [e] (the exception propagates). *)
Definition try_except {A : Type} (c : result A) (h : exn -> option (result A))
  : result A :=
  match c with
  | Return a => Return a
  | Raise e => match h e with Some r => r | None => Raise e end
  end.

(** ** Strings *)

(** [s[n:]]. *)
Fixpoint str_drop (n : nat) (s : string) : string :=
  match n, s with
  | O, _ => s
  | S n', String _ r => str_drop n' r
  | S _, EmptyString => EmptyString
  end.

(** [s.startswith(p)]. *)
Definition startswith (p s : string) : bool := String.prefix p s.

(** [s.split(c)] for a one-character separator. *)
Fixpoint split_on (c : ascii) (s : string) : list string :=
  match s with
  | EmptyString => [EmptyString]
  | String a r =>
      if Ascii.eqb a c then EmptyString :: split_on c r
      else match split_on c r with
           | h :: t => String a h :: t
           | [] => [String a EmptyString]
           end
  end.

(** [s.split(c, n)]: at most [n] cuts, the rest stays in the last piece. *)
Fixpoint split_max (c : ascii) (n : nat) (s : string) : list string :=
  match n with
  | O => [s]
  | S n' =>
      match s with
      | EmptyString => [EmptyString]
      | String a r =>
          if Ascii.eqb a c then EmptyString :: split_max c n' r
          else match split_max c n r with
               | h :: t => String a h :: t
               | [] => [String a EmptyString]
               end
      end
  end.

Definition byte_of (a : ascii) : Z := Z.of_N (N_of_ascii a).
Definition ascii_of_byte (z : Z) : ascii := ascii_of_N (Z.to_N z).

Definition bytes_of (s : string) : list Z := map byte_of (list_ascii_of_string s).

(** ["%d" % z]. *)
Definition str_of_int (z : Z) : string := NilZero.string_of_int (Z.to_int z).

(** [str(e)]: the message, for a [KeyError] the [repr] of the key, for an
    [HTTPException] the status code and the detail. *)
Definition exn_str (e : exn) : string :=
  match e with
  | HTTPException sc d => str_of_int sc ++ ": " ++ d
  | KeyError k => "'" ++ k ++ "'"
  | AuthenticationError m | ExpiredSignatureError m | InvalidTokenError m
  | InvalidKeyError m | RequestException m | SignatureVerificationError m
  | TypeError m | ValueError m | IndexError m
  | AttributeError m | RuntimeError m => m
  end.

(** Characters that [int()] treats as blank around the digits: the ASCII
    blanks and, in the Latin-1 range, U+001C..U+001F, U+0085, U+00A0. *)
Definition is_space (a : ascii) : bool :=
  let b := byte_of a in
  ((9 <=? b) && (b <=? 13)) || ((28 <=? b) && (b <=? 32))
  || (b =? 133) || (b =? 160).

Fixpoint lstrip (s : string) : string :=
  match s with
  | String a r => if is_space a then lstrip r else s
  | EmptyString => EmptyString
  end.

Definition str_rev (s : string) : string :=
  string_of_list_ascii (rev (list_ascii_of_string s)).

Definition strip (s : string) : string := str_rev (lstrip (str_rev (lstrip s))).

Definition digit_of (a : ascii) : option Z :=
  let b := byte_of a in
  if (48 <=? b) && (b <=? 57) then Some (b - 48) else None.

(** Digits of a decimal literal, a single underscore allowed between two
    digits.  [after_digit] tells whether the previous character was a
    digit; [acc] is [None] until the first digit is read. *)
Fixpoint parse_digits (acc : option Z) (after_digit : bool) (s : string)
  : option Z :=
  match s with
  | EmptyString => if after_digit then acc else None
  | String a r =>
      match digit_of a with
      | Some d =>
          parse_digits (Some (10 * match acc with Some n => n | None => 0 end + d))
                       true r
      | None =>
          if Ascii.eqb a "_"%char && after_digit
          then match r with
               | String a' _ =>
                   match digit_of a' with
                   | Some _ => parse_digits acc false r
                   | None => None
                   end
               | EmptyString => None
               end
          else None
      end
  end.

(** [int(s)] for a string [s]; [None] is [ValueError]. *)
Definition int_of_str (s : string) : option Z :=
  match strip s with
  | String "-" r => option_map Z.opp (parse_digits None false r)
  | String "+" r => parse_digits None false r
  | t => parse_digits None false t
  end.

(** [int(x)] for a float [x]: truncation towards zero. *)
Definition int_of_float (q : Q) : Z := Z.quot (Qnum q) (Zpos (Qden q)).

(** [int(v)] for a decoded JSON value. *)
Definition py_int (v : pyval) : result Z :=
  match v with
  | PInt z => Return z
  | PBool b => Return (if b then 1 else 0)
  | PFloat q => Return (int_of_float q)
  | PStr s =>
      match int_of_str s with
      | Some z => Return z
      | None => Raise (ValueError "invalid literal for int() with base 10")
      end
  | _ => Raise (TypeError "int() argument must be a string, a bytes-like object or a real number")
  end.

(** The UTF-8 encoding of a Latin-1 string ([s.encode('utf-8')] for a
    header value): code points from 128 up take two bytes. *)
Fixpoint utf8_of_latin1 (s : string) : string :=
  match s with
  | EmptyString => EmptyString
  | String a r =>
      let b := byte_of a in
      if b <? 128 then String a (utf8_of_latin1 r)
      else String (ascii_of_byte (192 + Z.shiftr b 6))
             (String (ascii_of_byte (128 + Z.land b 63)) (utf8_of_latin1 r))
  end.

Definition is_ascii_str (s : string) : bool :=
  forallb (fun a => byte_of a <? 128) (list_ascii_of_string s).

Definition in_range (lo hi b : Z) : bool := (lo <=? b) && (b <=? hi).


(** Well-formed UTF-8 (RFC 3629): what [bytes.decode('utf-8')] accepts. *)
Fixpoint utf8_valid (l : list Z) : bool :=
  match l with
  | [] => true
  | b0 :: r0 =>
      if b0 <? 128 then utf8_valid r0
      else match r0 with
      | [] => false
      | b1 :: r1 =>
          if in_range 194 223 b0 then in_range 128 191 b1 && utf8_valid r1
          else match r1 with
          | [] => false
          | b2 :: r2 =>
              if b0 =? 224 then
                in_range 160 191 b1 && in_range 128 191 b2 && utf8_valid r2
              else if b0 =? 237 then
                in_range 128 159 b1 && in_range 128 191 b2 && utf8_valid r2
              else if in_range 225 239 b0 then
                in_range 128 191 b1 && in_range 128 191 b2 && utf8_valid r2
              else match r2 with
              | [] => false
              | b3 :: r3 =>
                  let tail := in_range 128 191 b2 && in_range 128 191 b3
                              && utf8_valid r3 in
                  if b0 =? 240 then in_range 144 191 b1 && tail
                  else if in_range 241 243 b0 then in_range 128 191 b1 && tail
                  else if b0 =? 244 then in_range 128 143 b1 && tail
                  else false
              end
          end
      end
  end.

(** [payload.decode('utf-8')]: the text is kept as its bytes. *)
Definition utf8_decode (payload : string) : result string :=
  if utf8_valid (bytes_of payload) then Return payload
  else Raise (ValueError "'utf-8' codec can't decode bytes").

(** ** SHA-256 and HMAC ([hashlib.sha256], [hmac.new(...).hexdigest()]) *)

Module Sha256.

Definition w32 (x : Z) : Z := x mod 2 ^ 32.

Definition rotr (n x : Z) : Z :=
  Z.lor (Z.shiftr x n) (w32 (Z.shiftl x (32 - n))).

Definition Ch (x y z : Z) : Z := Z.lxor (Z.land x y) (Z.land (Z.lnot x) z).
Definition Maj (x y z : Z) : Z :=
  Z.lxor (Z.lxor (Z.land x y) (Z.land x z)) (Z.land y z).
Definition bsig0 (x : Z) : Z := Z.lxor (Z.lxor (rotr 2 x) (rotr 13 x)) (rotr 22 x).
Definition bsig1 (x : Z) : Z := Z.lxor (Z.lxor (rotr 6 x) (rotr 11 x)) (rotr 25 x).
Definition ssig0 (x : Z) : Z := Z.lxor (Z.lxor (rotr 7 x) (rotr 18 x)) (Z.shiftr x 3).
Definition ssig1 (x : Z) : Z := Z.lxor (Z.lxor (rotr 17 x) (rotr 19 x)) (Z.shiftr x 10).

(** The round constants are the first 32 fractional bits of the cube
    roots of the first 64 primes, the initial state those of the square
    roots of the first 8. *)
Fixpoint is_prime_by (ds : list Z) (n : Z) : bool :=
  match ds with
  | [] => true
  | d :: r => negb (n mod d =? 0) && is_prime_by r n
  end.

Fixpoint primes_upto (fuel : nat) (n : Z) (found : list Z) : list Z :=
  match fuel with
  | O => rev found
  | S f => primes_upto f (n + 1)
             (if is_prime_by found n then n :: found else found)
  end.

Definition primes64 : list Z := Eval vm_compute in primes_upto 310 2 [].

Fixpoint icbrt_from (bits : nat) (n r : Z) : Z :=
  match bits with
  | O => r
  | S b =>
      let c := r + 2 ^ Z.of_nat b in
      icbrt_from b n (if c * c * c <=? n then c else r)
  end.

Definition K : list Z :=
  Eval vm_compute in map (fun p => w32 (icbrt_from 36 (p * 2 ^ 96) 0)) primes64.

Definition H0 : list Z :=
  Eval vm_compute in map (fun p => w32 (Z.sqrt (p * 2 ^ 64))) (firstn 8 primes64).

Definition be_bytes (n : nat) (x : Z) : list Z :=
  map (fun i => Z.shiftr x (8 * Z.of_nat i) mod 256) (rev (seq 0 n)).

Definition pad (msg : list Z) : list Z :=
  let len := Z.of_nat (List.length msg) in
  msg ++ [128] ++ repeat 0 (Z.to_nat ((55 - len) mod 64)) ++ be_bytes 8 (8 * len).

Fixpoint words_of (fuel : nat) (bs : list Z) : list Z :=
  match fuel, bs with
  | S f, b0 :: b1 :: b2 :: b3 :: r =>
      (b0 * 2 ^ 24 + b1 * 2 ^ 16 + b2 * 2 ^ 8 + b3) :: words_of f r
  | _, _ => []
  end.

Fixpoint schedule (n : nat) (w : list Z) : list Z :=
  match n with
  | O => w
  | S n' =>
      let t := List.length w in
      let at_ (k : nat) := nth (t - k) w 0 in
      schedule n' (w ++ [w32 (ssig1 (at_ 2%nat) + at_ 7%nat
                              + ssig0 (at_ 15%nat) + at_ 16%nat)])
  end.

Definition round (s : list Z) (kw : Z * Z) : list Z :=
  match s with
  | [a; b; c; d; e; f; g; h] =>
      let t1 := h + bsig1 e + Ch e f g + fst kw + snd kw in
      let t2 := bsig0 a + Maj a b c in
      [w32 (t1 + t2); a; b; c; w32 (d + t1); e; f; g]
  | _ => s
  end.

Definition compress (h : list Z) (block : list Z) : list Z :=
  let w := schedule 48 (words_of 16 block) in
  map (fun p => w32 (fst p + snd p))
      (combine h (fold_left round (combine K w) h)).

Fixpoint blocks (fuel : nat) (h : list Z) (bs : list Z) : list Z :=
  match fuel with
  | O => h
  | S f =>
      match bs with
      | [] => h
      | _ => blocks f (compress h (firstn 64 bs)) (skipn 64 bs)
      end
  end.

(** The 32-byte digest. *)
Definition digest (msg : list Z) : list Z :=
  let p := pad msg in
  flat_map (be_bytes 4) (blocks (List.length p) H0 p).

Definition hex_digit (n : Z) : ascii :=
  ascii_of_byte (if n <? 10 then 48 + n else 87 + n).

Fixpoint hex (bs : list Z) : string :=
  match bs with
  | [] => EmptyString
  | b :: r => String (hex_digit (b / 16)) (String (hex_digit (b mod 16)) (hex r))
  end.

Definition hexdigest (msg : string) : string := hex (digest (bytes_of msg)).

End Sha256.

Module Hmac.

Definition block_size : nat := 64.

Definition pad_key (key : list Z) : list Z :=
  let k := if (block_size <? List.length key)%nat then Sha256.digest key else key in
  k ++ repeat 0 (block_size - List.length k).

Definition digest (key msg : list Z) : list Z :=
  let k := pad_key key in
  Sha256.digest (map (Z.lxor 92) k ++ Sha256.digest (map (Z.lxor 54) k ++ msg)).

(** [hmac.new(key, msg, hashlib.sha256).hexdigest()]: 64 lower-case
    hexadecimal digits. *)
Definition sha256_hex (key msg : string) : string :=
  Sha256.hex (digest (bytes_of key) (bytes_of msg)).

(** [hmac.compare_digest] on two [str]: both must be ASCII. *)
Definition compare_digest (a b : string) : result bool :=
  if is_ascii_str a && is_ascii_str b then Return (a =? b)%string
  else Raise (TypeError "comparing strings with non-ASCII characters is not supported").

(** [any(hmac.compare_digest(expected, s) for s in signatures)]: the
    generator is consumed up to the first match. *)
Fixpoint any_equal (expected : string) (signatures : list string) : result bool :=
  match signatures with
  | [] => Return false
  | s :: rest =>
      match compare_digest expected s with
      | Return true => Return true
      | Return false => any_equal expected rest
      | Raise e => Raise e
      end
  end.

End Hmac.

(** ** Rational comparisons as booleans *)

Definition Qlt_bool (x y : Q) : bool := negb (Qle_bool y x).

(** ** Subscripts and iteration on decoded JSON *)

(** [v[k]] for a string [k]. *)
Definition subscript (v : pyval) (k : string) : result pyval :=
  match v with
  | PDict d =>
      match dict_lookup k d with
      | Some x => Return x
      | None => Raise (KeyError k)
      end
  | PList _ => Raise (TypeError "list indices must be integers or slices, not str")
  | PStr _ => Raise (TypeError "string indices must be integers, not 'str'")
  | _ => Raise (TypeError "object is not subscriptable")
  end.

(** The items that [for x in v] visits. *)
Definition iterate (v : pyval) : result (list pyval) :=
  match v with
  | PList l => Return l
  | PDict d => Return (map (fun kv => PStr (fst kv)) d)
  | PStr s => Return (map (fun a => PStr (String a EmptyString)) (list_ascii_of_string s))
  | _ => Raise (TypeError "object is not iterable")
  end.

(** ** The libraries behind the three modules *)

(** A verification key handed to [jwt.decode]: the shared secret of the
    HS256 path, or the public key that [ECAlgorithm.from_jwk] builds. *)
Inductive jwt_key : Type :=
| SecretKey (secret : string)
| ECKey (jwk : pyval).

(** What the three calls [requests.get(url)], [response.raise_for_status()]
    and [response.json()] of [get_jwks] come to. *)
Inductive fetch_outcome : Type :=
| NetworkError (msg : string)
| BadStatus (msg : string)
| BodyNotJson (msg : string)
| BodyJson (body : pyval).

(** The operations whose results come from outside the repository: the
    JOSE codec and signature algorithms of PyJWT, the JSON decoder, and
    the services that Stripe events are dispatched to.  Nothing is
    assumed of them. *)
Class Platform : Type := {
  (** PyJWT [_load]: the header of a compact token, or the text of the
      [DecodeError]. *)
  jws_load : string -> string + pydict;
  (** PyJWT [prepare_key] then [verify] for algorithm [alg] on token
      [tok]: whether the signature is good, or what preparing the key
      raised. *)
  jws_signature_ok : forall (alg tok : string) (key : jwt_key), result bool;
  (** PyJWT [_decode_payload]: the claims object, or the text of the
      [DecodeError]. *)
  jws_payload : string -> string + pydict;
  (** [jwt.algorithms.ECAlgorithm.from_jwk]. *)
  ec_from_jwk : pyval -> result jwt_key;
  (** [json.loads] on text; [None] is [JSONDecodeError]. *)
  json_loads : string -> option pyval;
  (** [stripe.checkout.Session.retrieve(id, expand=['line_items'])]
      turned into a dict, [None] when it raises. *)
  session_retrieve : pyval -> option pyval;
  (** The handlers of [stripe_service]: [false] when they raise. *)
  handle_checkout_completed : pyval -> bool;
  handle_subscription_updated : pyval -> bool;
  handle_invoice_payment_failed : pyval -> bool
}.

(** ** PyJWT: [jwt.get_unverified_header] and [jwt.decode] *)

Module PyJWT.
Section WithPlatform.
Context {P : Platform}.

Definition get_unverified_header (token : string) : result pydict :=
  match jws_load token with
  | inl msg => Raise (InvalidTokenError msg)
  | inr header =>
      match dict_lookup "kid" header with
      | None | Some (PStr _) => Return header
      | Some _ => Raise (InvalidTokenError "Key ID header parameter must be a string")
      end
  end.

(** [int(payload[claim])] inside a [_validate_*] method: a [ValueError]
    becomes an error of the [InvalidTokenError] family, anything else
    passes through. *)
Definition int_claim (claim : string) (v : pyval) : result Z :=
  try_except (py_int v)
    (fun e => if is_value_error e
              then Some (Raise (InvalidTokenError (claim ++ " claim must be an integer")))
              else None).

Definition validate_iat (payload : pydict) (now leeway : Q) : result unit :=
  match dict_lookup "iat" payload with
  | None => Return tt
  | Some v =>
      iat <- int_claim "iat" v ;;
      if Qlt_bool (now + leeway) (inject_Z iat)
      then Raise (InvalidTokenError "The token is not yet valid (iat)")
      else Return tt
  end.

Definition validate_nbf (payload : pydict) (now leeway : Q) : result unit :=
  match dict_lookup "nbf" payload with
  | None => Return tt
  | Some v =>
      nbf <- int_claim "nbf" v ;;
      if Qlt_bool (now + leeway) (inject_Z nbf)
      then Raise (InvalidTokenError "The token is not yet valid (nbf)")
      else Return tt
  end.

(** [if exp <= (now - leeway): raise ExpiredSignatureError]. *)
Definition validate_exp (payload : pydict) (now leeway : Q) : result unit :=
  match dict_lookup "exp" payload with
  | None => Return tt
  | Some v =>
      exp <- int_claim "exp" v ;;
      if Qle_bool (inject_Z exp) (now - leeway)
      then Raise (ExpiredSignatureError "Signature has expired")
      else Return tt
  end.

Definition is_str (v : pyval) : bool :=
  match v with PStr _ => true | _ => false end.

Definition str_is (s : string) (v : pyval) : bool :=
  match v with PStr s' => (s' =? s)%string | _ => false end.

Definition validate_aud (payload : pydict) (audience : string) : result unit :=
  match dict_lookup "aud" payload with
  | None => Raise (InvalidTokenError "Token is missing the aud claim")
  | Some v =>
      if negb (truthy v)
      then Raise (InvalidTokenError "Token is missing the aud claim")
      else
        match (match v with
               | PStr s => Some [PStr s]
               | PList l => Some l
               | _ => None
               end) with
        | None => Raise (InvalidTokenError "Invalid claim format in token")
        | Some claims =>
            if negb (forallb is_str claims)
            then Raise (InvalidTokenError "Invalid claim format in token")
            else if existsb (str_is audience) claims then Return tt
            else Raise (InvalidTokenError "Audience doesn't match")
        end
  end.

(** [_validate_claims] with the default options: issued-at, not-before,
    expiry, then audience. *)
Definition validate_claims (payload : pydict) (audience : string)
    (leeway now : Q) : result unit :=
  validate_iat payload now leeway ;;;
  validate_nbf payload now leeway ;;;
  validate_exp payload now leeway ;;;
  validate_aud payload audience.

Definition str_in (algorithms : list string) (v : pyval) : option string :=
  match v with
  | PStr a => if existsb (String.eqb a) algorithms then Some a else None
  | _ => None
  end.

(** [jwt.decode(token, key, algorithms=..., audience=..., leeway=...)],
    called when the clock reads [now]. *)
Definition decode (token : string) (key : jwt_key) (algorithms : list string)
    (audience : string) (leeway now : Q) : result pydict :=
  match jws_load token with
  | inl msg => Raise (InvalidTokenError msg)
  | inr header =>
      match str_in algorithms (dict_get "alg" header) with
      | None => Raise (InvalidTokenError "The specified alg value is not allowed")
      | Some alg =>
          good <- jws_signature_ok alg token key ;;
          if negb good then Raise (InvalidTokenError "Signature verification failed")
          else
            match jws_payload token with
            | inl msg => Raise (InvalidTokenError msg)
            | inr payload =>
                validate_claims payload audience leeway now ;;;
                Return payload
            end
      end
  end.

End WithPlatform.
End PyJWT.

(** ** [app/core/security.py] *)

Module Security.

(** The module-level dict [jwks_cache], with its two fixed keys. *)
Record jwks_cache_t : Type := {
  keys : pyval;
  last_fetched : Q
}.

(** The process state that [get_jwks] reads and writes, with the number
    of GET requests sent to the JWKS endpoint so far. *)
Record world : Type := {
  jwks_cache : jwks_cache_t;
  http_gets : nat
}.

Definition initial_cache : jwks_cache_t := {| keys := PList []; last_fetched := 0 |}.

Definition CACHE_LIFETIME_SECONDS : Q := 3600.

(** Lines 27 to 29: the request is sent, then the status and the body
    are examined.  All three failures are [RequestException]s. *)
Definition fetch_keys (remote : fetch_outcome) : result pyval :=
  match remote with
  | NetworkError msg | BadStatus msg | BodyNotJson msg =>
      Raise (RequestException msg)
  | BodyJson body => subscript body "keys"
  end.

(** [get_jwks()], called at clock reading [now] while the endpoint
    would answer [remote]. *)
Definition get_jwks (now : Q) (remote : fetch_outcome) (w : world)
  : result pyval * world :=
  let cache := jwks_cache w in
  if negb (truthy (keys cache))
     || Qlt_bool CACHE_LIFETIME_SECONDS (now - last_fetched cache)
  then
    let w1 := {| jwks_cache := cache; http_gets := S (http_gets w) |} in
    match fetch_keys remote with
    | Return ks =>
        let w2 := {| jwks_cache := {| keys := ks; last_fetched := now |};
                     http_gets := http_gets w1 |} in
        (Return (keys (jwks_cache w2)), w2)
    | Raise (RequestException msg) =>
        (Raise (HTTPException 503 ("Could not fetch JWKS: " ++ msg)), w1)
    | Raise e => (Raise e, w1)
    end
  else (Return (keys cache), w).

(** The cache is served when it holds a non-empty key set fetched at most
    [CACHE_LIFETIME_SECONDS] ago. *)
Definition cache_fresh (now : Q) (c : jwks_cache_t) : Prop :=
  truthy (keys c) = true /\ (now - last_fetched c <= CACHE_LIFETIME_SECONDS)%Q.

(** Several calls in a row, each at its clock reading and with what the
    endpoint would answer then. *)
Fixpoint get_jwks_calls (calls : list (Q * fetch_outcome)) (w : world)
  : list (result pyval) * world :=
  match calls with
  | [] => ([], w)
  | (now, remote) :: rest =>
      let (r, w1) := get_jwks now remote w in
      let (rs, w2) := get_jwks_calls rest w1 in
      (r :: rs, w2)
  end.

Section WithPlatform.
Context {P : Platform}.

(** Lines 41 to 45: the bearer token of the [Authorization] header. *)
Definition bearer_token (auth_header : option string) : option string :=
  match auth_header with
  | Some h =>
      if negb (h =? "")%string && startswith "Bearer " h
      then Some (nth 1 (split_on " " h) "")
      else None
  | None => None
  end.

(** Lines 60 to 64: the first key of the set whose [kid] equals the
    token's. *)
Fixpoint find_signing_key (kid : string) (jwks : list pyval)
  : result (option jwt_key) :=
  match jwks with
  | [] => Return None
  | key :: rest =>
      k <- subscript key "kid" ;;
      if PyJWT.str_is kid k
      then (signing_key <- ec_from_jwk key ;; Return (Some signing_key))
      else find_signing_key kid rest
  end.

(** Lines 54 to 77, the body of the [try]. *)
Definition verify_token_body (t_jwks t_jwt : Q) (remote : fetch_outcome)
    (token : string) (w : world) : result pyval * world :=
  let (r, w') := get_jwks t_jwks remote w in
  (jwks <- r ;;
   unverified_header <- PyJWT.get_unverified_header token ;;
   let kid := dict_get "kid" unverified_header in
   if negb (truthy kid)
   then Raise (InvalidTokenError "Token header is missing 'kid'")
   else
     items <- iterate jwks ;;
     found <- find_signing_key (match kid with PStr s => s | _ => "" end) items ;;
     match found with
     | None => Raise (InvalidTokenError "Signing key not found in JWKS")
     | Some signing_key =>
         payload <- PyJWT.decode token signing_key ["ES256"] "authenticated" 0 t_jwt ;;
         Return (PDict [("user", PDict payload); ("token", PStr token)])
     end,
   w').

(** [verify_token(request)]: [auth_header] is
    [request.headers.get("Authorization")]. *)
Definition verify_token (t_jwks t_jwt : Q) (remote : fetch_outcome)
    (auth_header : option string) (w : world) : result pyval * world :=
  match bearer_token auth_header with
  | None => (Raise (HTTPException 401 "Not authenticated"), w)
  | Some token =>
      let (r, w') := verify_token_body t_jwks t_jwt remote token w in
      (try_except r
         (fun e =>
            match e with
            | ExpiredSignatureError _ =>
                Some (Raise (HTTPException 401 "Token has expired"))
            | InvalidTokenError msg =>
                Some (Raise (HTTPException 401 ("Invalid token: " ++ msg)))
            | _ => None
            end),
       w')
  end.

End WithPlatform.
End Security.

(** ** Settings ([app/core/config.py]) *)

(** What reading an attribute of the settings object gives. *)
Inductive attribute (A : Type) : Type :=
| NoSuchAttribute
| Value (a : A).
Arguments NoSuchAttribute {A}.
Arguments Value {A} a.

(** The settings the three modules read.  [supabase_url] and
    [supabase_secret_key] are required fields of [Settings].  The webhook
    endpoint reads [settings.STRIPE_WEBHOOK_SECRET], while [config.py]
    declares the field as [stripe_webhook_secret], with
    [STRIPE_WEBHOOK_SECRET] as its alias, and leaves the property of that
    name commented out; the read is therefore kept as the settings object
    decides it: an [AttributeError], or the value, which is [None] when
    the deployment sets no webhook secret. *)
Record Settings : Type := {
  supabase_url : string;
  supabase_secret_key : string;
  STRIPE_WEBHOOK_SECRET : attribute (option string)
}.

(** ** [app/api/deps.py] *)

Module Deps.

(** What an attribute read on a class gives: for a name that the class
    defines with [@property], the property object itself, not a value
    of any request. *)
Inductive class_attr : Type :=
| PropertyObject (name : string)
| ClassValue (v : pyval).

(** [attr == s] for a string [s]: a property object equals only itself. *)
Definition attr_eq_str (a : class_attr) (s : string) : bool :=
  match a with
  | ClassValue (PStr s') => (s' =? s)%string
  | _ => false
  end.

(** [Request.method], read on the class [fastapi.Request]. *)
Definition Request_method : class_attr := PropertyObject "method".

Section WithPlatform.
Context {P : Platform}.
Variable settings : Settings.

(** Lines 34 to 52, the body of the inner [try]; [token] is
    [credentials.credentials]. *)
Definition decode_user_info (now : Q) (token : string) : result pyval :=
  payload <- PyJWT.decode token (SecretKey (supabase_secret_key settings))
               ["HS256"] "authenticated" 10 now ;;
  let user_info :=
    [("user_id", dict_get "sub" payload);
     ("email", dict_get "email" payload);
     ("role", dict_get_default "role" (PStr "authenticated") payload)] in
  if negb (truthy (dict_get "user_id" user_info))
  then Raise (AuthenticationError "Invalid token: missing user ID")
  else Return (PDict user_info).

(** [get_current_user(credentials)], called at clock reading [now]. *)
Definition get_current_user (now : Q) (credentials : string) : result pyval :=
  if attr_eq_str Request_method "OPTIONS" then Return PNone
  else
    try_except
      (let token := credentials in
       try_except (decode_user_info now token)
         (fun e =>
            match e with
            | ExpiredSignatureError _ =>
                Some (Raise (HTTPException 401 "Token has expired"))
            | InvalidTokenError _ =>
                Some (Raise (HTTPException 401 "Invalid authentication token"))
            | _ => None
            end))
      (fun e =>
         match e with
         | HTTPException _ _ => Some (Raise e)
         | _ => Some (Raise (AuthenticationError
                               ("Authentication failed: " ++ exn_str e)))
         end).

End WithPlatform.
End Deps.

(** ** The Stripe client library: [stripe.Webhook.construct_event] *)

Module Stripe.

Definition DEFAULT_TOLERANCE : Q := 300.
Definition EXPECTED_SCHEME : string := "v1".

(** [WebhookSignature._compute_signature]. *)
Definition compute_signature (payload secret : string) : string :=
  Hmac.sha256_hex secret payload.

(** [util.secure_compare]. *)
Definition secure_compare (a b : string) : result bool := Hmac.compare_digest a b.

(** [any(util.secure_compare(expected_sig, s) for s in signatures)]. *)
Definition any_match (expected : string) (signatures : list string) : result bool :=
  Hmac.any_equal expected signatures.

(** [[i[1] for i in list_items if i[0] == name]]. *)
Fixpoint fields_named (name : string) (list_items : list (list string))
  : result (list string) :=
  match list_items with
  | [] => Return []
  | i :: rest =>
      if (nth 0 i "" =? name)%string
      then match nth_error i 1 with
           | Some v => (vs <- fields_named name rest ;; Return (v :: vs))
           | None => Raise (IndexError "list index out of range")
           end
      else fields_named name rest
  end.

(** [WebhookSignature._get_timestamp_and_signatures]. *)
Definition get_timestamp_and_signatures (header scheme : string)
  : result (Z * list string) :=
  let list_items := map (split_max "=" 2) (split_on "," header) in
  ts <- fields_named "t" list_items ;;
  match ts with
  | [] => Raise (IndexError "list index out of range")
  | t :: _ =>
      match int_of_str t with
      | None => Raise (ValueError "invalid literal for int() with base 10")
      | Some timestamp =>
          signatures <- fields_named scheme list_items ;;
          Return (timestamp, signatures)
      end
  end.

(** [WebhookSignature.verify_header(payload, header, secret, tolerance)],
    called when the clock reads [now]. *)
Definition verify_header (payload header secret : string) (tolerance now : Q)
  : result bool :=
  match get_timestamp_and_signatures header EXPECTED_SCHEME with
  | Raise _ =>
      Raise (SignatureVerificationError
               "Unable to extract timestamp and signatures from header")
  | Return (timestamp, signatures) =>
      match signatures with
      | [] => Raise (SignatureVerificationError
                       "No signatures found with expected scheme v1")
      | _ :: _ =>
          let signed_payload := str_of_int timestamp ++ "." ++ payload in
          let expected_sig := compute_signature signed_payload secret in
          m <- any_match expected_sig signatures ;;
          if negb m
          then Raise (SignatureVerificationError
                 "No signatures found matching the expected signature for payload")
          else if negb (Qeq_bool tolerance 0)
                  && Qlt_bool (inject_Z timestamp) (now - tolerance)
          then Raise (SignatureVerificationError
                        "Timestamp outside the tolerance zone")
          else Return true
      end
  end.

Section WithPlatform.
Context {P : Platform}.

(** [stripe.Webhook.construct_event(payload, sig_header, secret)] with
    the default tolerance; the event is the decoded JSON object. *)
Definition construct_event (payload sig_header secret : string) (now : Q)
  : result pydict :=
  text <- utf8_decode payload ;;
  verify_header text sig_header secret DEFAULT_TOLERANCE now ;;;
  match json_loads text with
  | None => Raise (ValueError "Expecting value")
  | Some (PDict event) => Return event
  | Some _ => Raise (AttributeError "object has no attribute 'get'")
  end.

End WithPlatform.
End Stripe.

(** ** [app/api/endpoints/webnooks.py] *)

Module Webhooks.

Inductive level : Type := INFO | WARNING | ERROR.

(** What a run of the endpoint does besides answering: log records (by
    level and the fixed part of their text), the keyed hash of the
    inline check, the call into the Stripe library, and the calls to
    the Stripe API and to the handlers of [stripe_service]. *)
Inductive effect : Type :=
| Log (lvl : level) (text : string)
| HmacNew (key msg : string)
| ConstructEvent (payload sig_header secret : string)
| SessionRetrieve (session_id : pyval)
| Handler (name : string) (arg : pyval).

(** A computation with its trace; the trace is kept when it raises. *)
Definition io (A : Type) : Type := (list effect * result A)%type.

Definition io_ret {A : Type} (a : A) : io A := ([], Return a).
Definition io_raise {A : Type} (e : exn) : io A := ([], Raise e).
Definition lift {A : Type} (r : result A) : io A := ([], r).
Definition emit (e : effect) : io unit := ([e], Return tt).
Definition log (lvl : level) (text : string) : io unit := emit (Log lvl text).

Definition io_bind {A B : Type} (c : io A) (k : A -> io B) : io B :=
  match c with
  | (t, Return a) => let (t', r) := k a in ((t ++ t')%list, r)
  | (t, Raise e) => (t, Raise e)
  end.

Definition io_try {A : Type} (c : io A) (h : exn -> option (io A)) : io A :=
  match c with
  | (t, Return a) => (t, Return a)
  | (t, Raise e) =>
      match h e with
      | Some (t', r) => ((t ++ t')%list, r)
      | None => (t, Raise e)
      end
  end.

Notation "x <~ c ;; k" := (io_bind c (fun x => k))
  (at level 100, c at next level, right associativity) : py_scope.
Notation "c >> k" := (io_bind c (fun _ => k))
  (at level 100, right associativity) : py_scope.

Definition trace {A : Type} (c : io A) : list effect := fst c.
Definition response {A : Type} (c : io A) : result A := snd c.

(** [WebhookResponse(success=..., message=f"Webhook {event_type}
    processed successfully")]: the message is kept as the event type
    it is formatted from. *)
Record WebhookResponse : Type := {
  success : bool;
  processed_event_type : pyval
}.

(** Lines 54 to 62: the last [t=] part and all [v1=] parts, in order. *)
Definition parse_parts (sig_parts : list string) : option string * list string :=
  fold_left
    (fun acc part =>
       if startswith "t=" part then (Some (str_drop 2 part), snd acc)
       else if startswith "v1=" part then (fst acc, (snd acc ++ [str_drop 3 part])%list)
       else acc)
    sig_parts (None, []).

(** Lines 67 to 75. *)
Definition check_age (timestamp : option string) (t_debug : Q) : io unit :=
  match timestamp with
  | None | Some EmptyString => io_ret tt
  | Some ts =>
      let current_time := int_of_float t_debug in
      match int_of_str ts with
      | None => io_raise (ValueError "invalid literal for int() with base 10")
      | Some webhook_time =>
          let time_diff := Z.abs (current_time - webhook_time) in
          log INFO "Time difference" >>
          if 300 <? time_diff
          then log WARNING "Webhook timestamp is old (max allowed: 300)"
          else io_ret tt
      end
  end.

(** Lines 49 to 94, the body of the inline [try]: the value is
    [signature_match].  The signed text is built directly as the bytes
    that [signed_payload.encode('utf-8')] gives. *)
Definition manual_check (secret : string) (t_debug : Q)
    (payload stripe_signature : string) : io bool :=
  let sig_parts := split_on "," stripe_signature in
  let (timestamp, signatures) := parse_parts sig_parts in
  log INFO "Parsed timestamp" >>
  log INFO "Parsed signatures" >>
  check_age timestamp t_debug >>
  text <~ lift (utf8_decode payload) ;;
  let signed_payload :=
    utf8_of_latin1 (match timestamp with Some ts => ts | None => "None" end)
    ++ "." ++ text in
  log INFO "Signed payload length" >>
  log INFO "Signed payload (first 100 chars)" >>
  emit (HmacNew secret signed_payload) >>
  let expected_signature := Hmac.sha256_hex secret signed_payload in
  log INFO "Expected signature" >>
  log INFO "Received signatures" >>
  signature_match <~ lift (Hmac.any_equal expected_signature signatures) ;;
  log INFO "Signature match" >>
  io_ret signature_match.

Section WithPlatform.
Context {P : Platform}.

Definition call_handler (name : string) (h : pyval -> bool) (arg : pyval) : io unit :=
  emit (Handler name arg) >>
  if h arg then io_ret tt else io_raise (RuntimeError name).

(** [v.get(k, dflt)], which only a mapping has. *)
Definition get_method (v : pyval) (k : string) (dflt : pyval) : result pyval :=
  match v with
  | PDict d => Return (dict_get_default k dflt d)
  | _ => Raise (AttributeError "object has no attribute 'get'")
  end.

(** Lines 120 to 142. *)
Definition on_checkout_completed (event_data : pyval) : io unit :=
  lift (get_method event_data "id" (PStr "unknown")) >>
  log INFO "Handling checkout completion for session" >>
  session_id <~ lift (get_method event_data "id" PNone) ;;
  if truthy session_id then
    io_try
      (emit (SessionRetrieve session_id) >>
       match session_retrieve session_id with
       | None => io_raise (RuntimeError "stripe.checkout.Session.retrieve")
       | Some session_dict =>
           log INFO "Expanded session line items" >>
           call_handler "handle_checkout_completed" handle_checkout_completed session_dict
       end)
      (fun _ =>
         Some (log ERROR "Error expanding session" >>
               call_handler "handle_checkout_completed" handle_checkout_completed event_data))
  else call_handler "handle_checkout_completed" handle_checkout_completed event_data.

(** Lines 113 to 163: the event is dispatched on its type. *)
Definition handle_event (event : pydict) : io WebhookResponse :=
  event_type <~ lift (subscript (PDict event) "type") ;;
  data <~ lift (subscript (PDict event) "data") ;;
  event_data <~ lift (subscript data "object") ;;
  log INFO "Processing Stripe webhook" >>
  (if PyJWT.str_is "checkout.session.completed" event_type then
     on_checkout_completed event_data
   else if PyJWT.str_is "customer.subscription.updated" event_type then
     lift (get_method event_data "id" (PStr "unknown")) >>
     log INFO "Handling subscription update" >>
     call_handler "handle_subscription_updated" handle_subscription_updated event_data
   else if PyJWT.str_is "customer.subscription.deleted" event_type then
     lift (get_method event_data "id" (PStr "unknown")) >>
     log INFO "Handling subscription deletion" >>
     call_handler "handle_subscription_updated" handle_subscription_updated event_data
   else if PyJWT.str_is "invoice.payment_failed" event_type then
     lift (get_method event_data "id" (PStr "unknown")) >>
     log INFO "Handling payment failure for invoice" >>
     call_handler "handle_invoice_payment_failed" handle_invoice_payment_failed event_data
   else log INFO "Unhandled webhook event type") >>
  log INFO "Successfully processed webhook" >>
  io_ret {| success := true; processed_event_type := event_type |}.

(** Lines 99 to 111: the verification by the Stripe library, whose two
    exception classes are turned into a 400. *)
Definition official_verification (secret : string) (t_verify : Q)
    (payload stripe_signature : string) : io pydict :=
  io_try
    (emit (ConstructEvent payload stripe_signature secret) >>
     event <~ lift (Stripe.construct_event payload stripe_signature secret t_verify) ;;
     log INFO "Webhook signature verification successful" >>
     io_ret event)
    (fun e =>
       match e with
       | ValueError _ =>
           Some (log ERROR "Webhook rejected: Invalid payload format" >>
                 io_raise (HTTPException 400 "Invalid payload"))
       | SignatureVerificationError _ =>
           Some (log ERROR "Webhook rejected: Signature verification failed" >>
                 log ERROR "Full error details" >>
                 io_raise (HTTPException 400 "Invalid signature"))
       | _ => None
       end).

(** Lines 165 to 170: the two [except] clauses of the outer [try]. *)
Definition on_error (e : exn) : option (io WebhookResponse) :=
  match e with
  | HTTPException _ _ => Some (log ERROR "Webhook HTTP error" >> io_raise e)
  | _ => Some (log ERROR "Unexpected error processing webhook" >>
               io_raise (HTTPException 500 "Webhook processing failed"))
  end.

(** The endpoint with the inline check of lines 47 to 97 left as a
    parameter: [debug_block secret] is the body of that [try]. *)
Definition stripe_webhook_with (debug_block : string -> io bool)
    (settings : Settings) (t_verify : Q)
    (payload : string) (stripe_signature : option string) : io WebhookResponse :=
  io_try
    (log INFO "Received Stripe webhook request" >>
     log INFO "Webhook payload size" >>
     match stripe_signature with
     | None | Some EmptyString =>
         log ERROR "Webhook rejected: Missing Stripe signature header" >>
         io_raise (HTTPException 400 "Missing Stripe signature")
     | Some sig_header =>
         match STRIPE_WEBHOOK_SECRET settings with
         | NoSuchAttribute =>
             io_raise (AttributeError
                         "'Settings' object has no attribute 'STRIPE_WEBHOOK_SECRET'")
         | Value None | Value (Some EmptyString) =>
             log ERROR "Webhook rejected: STRIPE_WEBHOOK_SECRET not configured" >>
             io_raise (HTTPException 500 "Webhook secret not configured")
         | Value (Some secret) =>
             log INFO "Full webhook signature" >>
             log INFO "Webhook secret configured (first 10 chars)" >>
             log INFO "Raw payload (first 200 bytes)" >>
             log INFO "Raw payload (last 200 bytes)" >>
             io_try (debug_block secret >> io_ret tt)
               (fun _ => Some (log ERROR "Debug signature verification error")) >>
             event <~ official_verification secret t_verify payload sig_header ;;
             handle_event event
         end
     end)
    on_error.

(** [stripe_webhook(request, stripe_signature)]: [payload] is
    [await request.body()]; the inline check reads the clock at
    [t_debug], the Stripe library at [t_verify]. *)
Definition stripe_webhook (settings : Settings) (t_debug t_verify : Q)
    (payload : string) (stripe_signature : option string) : io WebhookResponse :=
  stripe_webhook_with
    (fun secret =>
       match stripe_signature with
       | Some sig_header => manual_check secret t_debug payload sig_header
       | None => io_ret false
       end)
    settings t_verify payload stripe_signature.

End WithPlatform.
End Webhooks.

(** ** Reading a trace *)

(** The effects of a trace that are not log records, and whether a trace
    has reached the dispatch: a session retrieval or a handler call. *)
Definition is_log (e : Webhooks.effect) : bool :=
  match e with Webhooks.Log _ _ => true | _ => false end.

Definition calls (t : list Webhooks.effect) : list Webhooks.effect :=
  filter (fun e => negb (is_log e)) t.

Definition is_dispatch (e : Webhooks.effect) : bool :=
  match e with
  | Webhooks.SessionRetrieve _ | Webhooks.Handler _ _ => true
  | _ => false
  end.

Definition dispatched (t : list Webhooks.effect) : bool := existsb is_dispatch t.

(** ** More of the Python runtime *)

(** [p in s] for two strings. *)
Fixpoint contains (p s : string) : bool :=
  String.prefix p s
  || match s with
     | EmptyString => false
     | String _ r => contains p r
     end.

(** [c in s] for a character [c]. *)
Fixpoint has_char (c : ascii) (s : string) : bool :=
  match s with
  | EmptyString => false
  | String a r => Ascii.eqb a c || has_char c r
  end.

(** [s.lower()]: the capital letters below U+0100 are A to Z and U+00C0
    to U+00DE without the multiplication sign U+00D7. *)
Definition lower_char (a : ascii) : ascii :=
  let b := byte_of a in
  if ((65 <=? b) && (b <=? 90))
     || ((192 <=? b) && (b <=? 222) && negb (b =? 215))
  then ascii_of_byte (b + 32) else a.

Fixpoint lower (s : string) : string :=
  match s with
  | EmptyString => EmptyString
  | String a r => String (lower_char a) (lower r)
  end.

(** [sep.join(parts)]. *)
Fixpoint join (sep : string) (parts : list string) : string :=
  match parts with
  | [] => EmptyString
  | [p] => p
  | p :: rest => p ++ sep ++ join sep rest
  end.

(** [d[k] = v]: the entry of [k] is replaced where it stands, a new key
    goes to the end. *)
Fixpoint dict_set (k : string) (v : pyval) (d : pydict) : pydict :=
  match d with
  | [] => [(k, v)]
  | (k', v') :: rest =>
      if (k' =? k)%string then (k, v) :: rest else (k', v') :: dict_set k v rest
  end.

(** [a != s] and [a == s] for a value [a] and a string [s]. *)
Definition eq_str (s : string) (v : pyval) : bool :=
  match v with PStr s' => (s' =? s)%string | _ => false end.

(** [v.get(k, dflt)], which only a mapping has. *)
Definition get_or (v : pyval) (k : string) (dflt : pyval) : result pyval :=
  match v with
  | PDict d => Return (dict_get_default k dflt d)
  | _ => Raise (AttributeError "object has no attribute 'get'")
  end.

(** ** [app/core/security.py]: [verify_old_token] *)

Module SecurityOld.
Section WithPlatform.
Context {P : Platform}.

(** [verify_old_token(self, token)], lines 93 to 113; [jwt_secret] is
    what reading [self.jwt_secret] gives. *)
Definition verify_old_token (jwt_secret : attribute string) (now : Q)
    (token : string) : result pyval :=
  try_except
    (secret <- match jwt_secret with
               | Value s => Return s
               | NoSuchAttribute =>
                   Raise (AttributeError "object has no attribute 'jwt_secret'")
               end ;;
     payload <- PyJWT.decode token (SecretKey secret) ["HS256"] "authenticated" 0 now ;;
     Return (PDict payload))
    (fun _ => Some (Return PNone)).

End WithPlatform.
End SecurityOld.

(** ** [app/api/deps.py]: the dependencies built on [get_current_user] *)

Module DepsChain.
Section WithPlatform.
Context {P : Platform}.
Variable settings : Settings.

(** The body of [get_current_user_id], of [get_current_user_email] and of
    [require_admin], given the value of their [current_user] parameter. *)
Definition get_current_user_id_body (current_user : pyval) : result pyval :=
  subscript current_user "user_id".

Definition get_current_user_email_body (current_user : pyval) : result pyval :=
  subscript current_user "email".

Definition require_admin_body (current_user : pyval) : result pyval :=
  role <- get_or current_user "role" PNone ;;
  if negb (eq_str "admin" role)
  then Raise (HTTPException 403 "Admin access required")
  else Return current_user.

(** [Depends(get_current_user)]: the dependency runs first, and its
    exception is the response. *)
Definition get_current_user_id (now : Q) (credentials : string) : result pyval :=
  current_user <- Deps.get_current_user settings now credentials ;;
  get_current_user_id_body current_user.

Definition get_current_user_email (now : Q) (credentials : string) : result pyval :=
  current_user <- Deps.get_current_user settings now credentials ;;
  get_current_user_email_body current_user.

Definition require_admin (now : Q) (credentials : string) : result pyval :=
  current_user <- Deps.get_current_user settings now credentials ;;
  require_admin_body current_user.

(** [get_jwt_token(credentials)]. *)
Definition get_jwt_token (credentials : string) : string := credentials.

(** The dict returned by the [except] clause of [get_user_subscription]. *)
Definition no_subscription : pyval :=
  PDict [("plan", PStr "none");
         ("can_access_dashboard", PBool false);
         ("can_access_analytics", PBool false);
         ("can_access_compare", PBool false)].

(** The body of [get_user_subscription], lines 121 to 141.  [profile] is
    what lines 125 and 126 come to: [response.data], or the exception of
    the client or of the query.  The [try] block ends without a
    [return]. *)
Definition get_user_subscription_body (profile : result pyval)
    (current_user : pyval) : result pyval :=
  try_except
    (user_id <- subscript current_user "user_id" ;;
     data <- profile ;;
     subscription_plan <- (if truthy data
                           then get_or data "subscription_plan" (PStr "none")
                           else Return (PStr "none")) ;;
     Return PNone)
    (fun e =>
       Some (get_or current_user "user_id" (PStr "unknown") ;;;
             Return no_subscription)).

Definition get_user_subscription (profile : result pyval) (now : Q)
    (credentials : string) : result pyval :=
  current_user <- Deps.get_current_user settings now credentials ;;
  get_user_subscription_body profile current_user.

End WithPlatform.
End DepsChain.

(** The user-info dict that [get_current_user] makes from the claims of
    a token (lines 41 to 45 of [deps.py]). *)
Definition user_info_of (payload : pydict) : pyval :=
  PDict [("user_id", dict_get "sub" payload);
         ("email", dict_get "email" payload);
         ("role", dict_get_default "role" (PStr "authenticated") payload)].

(** ** [app/core/config.py]: validators and derived settings *)

Module Config.

(** [validate_supabase_url], [validate_supabase_pub_key] and
    [validate_supabase_secret_key]: the value, or a [ValueError]. *)
Definition validate_supabase_url (v : string) : result string :=
  if (v =? "")%string then Raise (ValueError "SUPABASE_URL must be set")
  else if negb (startswith "https://" v)
  then Raise (ValueError "SUPABASE_URL must use HTTPS")
  else Return v.

Definition validate_supabase_pub_key (v : string) : result string :=
  if (v =? "")%string then Raise (ValueError "SUPABASE_PUB_KEY must be set")
  else if (String.length v <? 30)%nat
  then Raise (ValueError "SUPABASE_PUB_KEY appears to be invalid (too short)")
  else Return v.

Definition validate_supabase_secret_key (v : string) : result string :=
  if (v =? "")%string
  then Raise (ValueError "SUPABASE_SECRET_KEY must be set - this is critical for security")
  else if (String.length v <? 32)%nat
  then Raise (ValueError "SUPABASE_SECRET_KEY must be at least 32 characters for security")
  else Return v.

(** The property [cors_origins]. *)
Definition cors_origins (environment : string) : list string :=
  if (environment =? "development")%string
  then ["http://192.168.1.134:5173"]
  else ["https://www.describo.com"; "https://describo.com"].


End Config.

(** ** [app/core/lifespan.py]: start-up *)

Module Lifespan.

(** Lines 27 to 35: the key set is fetched before the routes are
    registered; whatever [get_jwks] raises becomes a [RuntimeError]. *)
Definition prefetch_jwks (now : Q) (remote : fetch_outcome) (w : Security.world)
  : result unit * Security.world :=
  let (r, w') := Security.get_jwks now remote w in
  (try_except (r ;;; Return tt)
     (fun _ => Some (Raise (RuntimeError "Failed to fetch JWKS on startup."))),
   w').

(** Lines 97 to 119: one line per setting. *)
Definition security_checks (supabase_url supabase_secret_key supabase_pub_key : string)
  : list string :=
  [ if (supabase_url =? "")%string
    then "❌ CRITICAL: supabase url is not configured"
    else if negb (startswith "https://" supabase_url)
    then "⚠️  WARNING: supabase urlshould use HTTPS"
    else "✅ supabase url is properly configured";
    if (supabase_secret_key =? "")%string
    then "❌ CRITICAL: supabase_secret_key is not configured"
    else if (String.length supabase_secret_key <? 32)%nat
    then "❌ CRITICAL: supabase_secret_key is too short (minimum 32 characters)"
    else "✅ supabase_secret_key is properly configured";
    if (supabase_pub_key =? "")%string
    then "❌ CRITICAL: supabase pub key is not configured"
    else "✅ supabase pub key is configured" ].

Definition critical_issues (checks : list string) : list string :=
  filter (contains "❌ CRITICAL") checks.

Definition warnings (checks : list string) : list string :=
  filter (contains "⚠️  WARNING") checks.

(** Lines 126 to 135: start-up stops on a critical line. *)
Definition check_security (supabase_url supabase_secret_key supabase_pub_key : string)
  : result unit :=
  match critical_issues
          (security_checks supabase_url supabase_secret_key supabase_pub_key) with
  | [] => Return tt
  | _ :: _ =>
      Raise (RuntimeError
               "Critical security configuration issues detected. Please configure all required environment variables before starting the application.")
  end.

End Lifespan.

(** ** [app/core/error_handler.py] and [app/core/exceptions.py] *)

Module ErrorSanitizer.

(** [ERROR_MAPPINGS], in the order of the dict. *)
Definition ERROR_MAPPINGS : list (string * string) :=
  [ ("duplicate key", "This resource already exists");
    ("foreign key", "Related resource not found");
    ("constraint", "Data validation failed");
    ("column", "Invalid data format");
    ("table", "Resource not found");
    ("database", "Service temporarily unavailable");
    ("connection", "Service temporarily unavailable");
    ("timeout", "Request timeout - please try again");
    ("token", "Authentication failed");
    ("jwt", "Authentication failed");
    ("signature", "Authentication failed");
    ("expired", "Session expired - please login again");
    ("unauthorized", "Access denied");
    ("forbidden", "Access denied");
    ("permission", "Access denied");
    ("role", "Access denied");
    ("supabase", "Service error - please try again");
    ("rls", "Access denied");
    ("policy", "Access denied");
    ("file not found", "Resource not found");
    ("no such file", "Resource not found");
    ("blob", "Storage service error");
    ("upload", "File upload failed");
    ("api", "External service error");
    ("http", "Network error");
    ("ssl", "Secure connection failed");
    ("certificate", "Secure connection failed");
    ("password", "Invalid credentials");
    ("secret", "Configuration error");
    ("key", "Configuration error");
    ("credential", "Invalid credentials");
    ("env", "Configuration error");
    ("memory", "System resource error");
    ("disk", "System resource error");
    ("cpu", "System resource error");
    ("process", "System error");
    ("thread", "System error") ].

Definition STATUS_MESSAGES : list (Z * string) :=
  [ (400, "Invalid request");
    (401, "Authentication required");
    (403, "Access denied");
    (404, "Resource not found");
    (405, "Method not allowed");
    (409, "Resource conflict");
    (410, "Resource no longer available");
    (422, "Invalid data provided");
    (429, "Too many requests - please try again later");
    (500, "An internal error occurred");
    (502, "Service temporarily unavailable");
    (503, "Service temporarily unavailable");
    (504, "Request timeout") ].

Fixpoint status_message (status_code : Z) (table : list (Z * string)) : option string :=
  match table with
  | [] => None
  | (c, m) :: rest => if c =? status_code then Some m else status_message status_code rest
  end.

(** The loop of lines 109 to 112: the message of the first pattern that
    occurs in the lower-cased text. *)
Fixpoint first_pattern (error_lower : string) (mappings : list (string * string))
  : option string :=
  match mappings with
  | [] => None
  | (pattern, sanitized) :: rest =>
      if contains pattern error_lower then Some sanitized
      else first_pattern error_lower rest
  end.

(** [ErrorSanitizer.sanitize(error_message, status_code)]: the value it
    returns (its log records are left out). *)
Definition sanitize (error_message : string) (status_code : Z) : string :=
  let error_lower := lower error_message in
  match first_pattern error_lower ERROR_MAPPINGS with
  | Some sanitized => sanitized
  | None =>
      match status_message status_code STATUS_MESSAGES with
      | Some m => m
      | None =>
          if 500 <=? status_code
          then "An internal error occurred. Please try again later."
          else if 400 <=? status_code then "Invalid request"
          else "An error occurred processing your request"
      end
  end.

(** Every text that [sanitize] can return. *)
Definition canned_messages : list string :=
  (map snd ERROR_MAPPINGS ++ map snd STATUS_MESSAGES
   ++ ["An internal error occurred. Please try again later.";
       "Invalid request";
       "An error occurred processing your request"])%list.

(** A [DescriboException]: its message and the status code its class
    sets. *)
Record DescriboException : Type := {
  message : string;
  status_code : Z
}.

(** The response of an exception handler: the status and the JSON body. *)
Record JSONResponse : Type := {
  response_code : Z;
  content : pydict
}.

(** [Describo_exception_handler(request, exc)]; [error_id] is the
    identifier that [ErrorLogger.log_error] draws. *)
Definition Describo_exception_handler (exc : DescriboException) (error_id : string)
  : JSONResponse :=
  {| response_code := status_code exc;
     content := [("success", PBool false);
                 ("error", PStr (sanitize (message exc) (status_code exc)));
                 ("status_code", PInt (status_code exc));
                 ("error_id", PStr error_id)] |}.

End ErrorSanitizer.

(** ** [app/services/stripe_service.py] and [app/api/endpoints/billing.py]:
    the checkout session *)

Module StripeService.
Section WithBackend.

(** [settings.stripe_price_id_maker] and [settings.stripe_price_id_studio]. *)
Variable stripe_price_id_maker stripe_price_id_studio : option string.
(** Lines 105 and 106: [result.data] of the profile query, or what the
    client or the query raises. *)
Variable profile : result pyval.
(** [create_or_get_customer(user_id, email, user_jwt, name)], the name
    being formatted from the two values given last. *)
Variable create_or_get_customer :
  pyval -> pyval -> string -> pyval -> pyval -> result pyval.
(** The [url] of the session that [stripe.checkout.Session.create] makes
    from [session_data]. *)
Variable session_create : pydict -> result pyval.

Definition optional_str (o : option string) : pyval :=
  match o with Some s => PStr s | None => PNone end.

Definition PRICE_IDS : pydict :=
  [("Maker", optional_str stripe_price_id_maker);
   ("Studio", optional_str stripe_price_id_studio)].

(** [create_checkout_session], lines 102 to 158; its [except] clause
    raises again what it caught. *)
Definition create_checkout_session (user_id : pyval)
    (plan success_url cancel_url user_jwt : string) : result pyval :=
  data <- profile ;;
  if negb (truthy data) then Raise (ValueError "User not found")
  else
    email <- subscript data "email" ;;
    first_name <- get_or data "first_name" (PStr "") ;;
    last_name <- get_or data "last_name" (PStr "") ;;
    customer_id <- create_or_get_customer user_id email user_jwt first_name last_name ;;
    let price_id := dict_get plan PRICE_IDS in
    if negb (truthy price_id) then Raise (ValueError ("Invalid plan: " ++ plan))
    else
      let metadata := PDict [("user_id", user_id); ("plan", PStr plan)] in
      let session_data :=
        [("customer", customer_id);
         ("payment_method_types", PList [PStr "card"]);
         ("line_items", PList [PDict [("price", price_id); ("quantity", PInt 1)]]);
         ("mode", PStr "subscription");
         ("success_url", PStr success_url);
         ("cancel_url", PStr cancel_url);
         ("metadata", metadata)] in
      let session_data :=
        if (plan =? "covenant")%string
        then (session_data
              ++ [("subscription_data",
                   PDict [("trial_period_days", PInt 14); ("metadata", metadata)])])%list
        else session_data in
      session_create session_data.

End WithBackend.
End StripeService.

Module Billing.
Section WithBackend.

Variable stripe_price_id_maker stripe_price_id_studio : option string.
Variable profile : result pyval.
Variable create_or_get_customer :
  pyval -> pyval -> string -> pyval -> pyval -> result pyval.
Variable session_create : pydict -> result pyval.

Record CheckoutSessionResponse : Type := {
  success : bool;
  checkout_url : string;
  message : string
}.

Definition valid_plans : list string := ["pro_hac_vice"; "covenant"; "force_majeure"].

(** [a or b] for an optional text [a]. *)
Definition or_default (a : option string) (b : string) : string :=
  match a with
  | Some s => if (s =? "")%string then b else s
  | None => b
  end.

(** [create_checkout_session], lines 48 to 89, given its [current_user]
    and [user_jwt]; [frontend_domain] is the setting of that name and the
    two URLs are those of the request body.  [checkout_url] of the
    response model is a [str]. *)
Definition create_checkout_session (frontend_domain plan : string)
    (request_success_url request_cancel_url : option string)
    (current_user : pyval) (user_jwt : string) : result CheckoutSessionResponse :=
  try_except
    (user_id <- subscript current_user "user_id" ;;
     let base_url := if negb (frontend_domain =? "")%string
                     then "https://" ++ frontend_domain
                     else "http://localhost:8000" in
     let success_url := or_default request_success_url
                          (base_url ++ "/account?payment=success") in
     let cancel_url := or_default request_cancel_url
                         (base_url ++ "/account?payment=cancelled") in
     if negb (existsb (String.eqb plan) valid_plans)
     then Raise (HTTPException 400
                   ("Invalid plan. Must be one of: " ++ join ", " valid_plans))
     else
       url <- StripeService.create_checkout_session
                stripe_price_id_maker stripe_price_id_studio profile
                create_or_get_customer session_create
                user_id plan success_url cancel_url user_jwt ;;
       match url with
       | PStr u => Return {| success := true; checkout_url := u;
                             message := "Checkout session created successfully" |}
       | _ => Raise (ValueError "1 validation error for CheckoutSessionResponse")
       end)
    (fun e => Some (Raise (HTTPException 500 (exn_str e)))).

End WithBackend.
End Billing.

(** ** [app/api/endpoints/users.py]: the profile *)

Module Users.

(** [len(v)] and [v[0]]. *)
Definition py_len (v : pyval) : result Z :=
  match v with
  | PStr s => Return (Z.of_nat (String.length s))
  | PList l => Return (Z.of_nat (List.length l))
  | PDict d => Return (Z.of_nat (List.length d))
  | _ => Raise (TypeError "object has no len()")
  end.

Definition first_item (v : pyval) : result pyval :=
  match v with
  | PList (x :: _) => Return x
  | PList [] => Raise (IndexError "list index out of range")
  | PStr (String a _) => Return (PStr (String a EmptyString))
  | PStr EmptyString => Raise (IndexError "string index out of range")
  | PDict _ => Raise (KeyError "0")
  | _ => Raise (TypeError "object is not subscriptable")
  end.

(** The data sent when no profile row is at hand. *)
Definition fallback_data (user_id email : pyval) : pyval :=
  PDict [("user_id", user_id);
         ("first_name", PNone);
         ("last_name", PNone);
         ("email", email);
         ("phone", PNone)].

Definition answer (data : pyval) : pyval :=
  PDict [("success", PBool true); ("data", data)].

(** Lines 219 to 234: the data made from a profile row. *)
Definition profile_data_of (profile : pyval) : result pyval :=
  id <- subscript profile "id" ;;
  first_name <- get_or profile "first_name" PNone ;;
  last_name <- get_or profile "last_name" PNone ;;
  email <- get_or profile "email" PNone ;;
  phone <- get_or profile "phone" PNone ;;
  created_at <- get_or profile "created_at" PNone ;;
  subscription_status <- get_or profile "subscription_status" PNone ;;
  subscription_plan <- get_or profile "subscription_plan" PNone ;;
  stripe_customer_id <- get_or profile "stripe_customer_id" PNone ;;
  updated_at <- get_or profile "updated_at" PNone ;;
  terms_accepted_at <- get_or profile "terms_accepted_at" PNone ;;
  terms_version <- get_or profile "terms_version" PNone ;;
  Return (PDict [("user_id", id);
                 ("first_name", first_name);
                 ("last_name", last_name);
                 ("email", email);
                 ("phone", phone);
                 ("created_at", created_at);
                 ("subscription_satus", subscription_status);
                 ("subscription_plan", subscription_plan);
                 ("stripe_customer_id", stripe_customer_id);
                 ("updated_at", updated_at);
                 ("terms_accepted_at", terms_accepted_at);
                 ("terms_version", terms_version)]).

(** [get_user_profile], lines 201 to 260, given its [current_user];
    [query] is what lines 212 to 215 come to: [response.data], or the
    exception of the client or of the query. *)
Definition get_user_profile (query : result pyval) (current_user : pyval)
  : result pyval :=
  user_id <- get_or current_user "user_id" PNone ;;
  try_except
    (data <- query ;;
     found <- (if truthy data
               then (n <- py_len data ;; Return (0 <? n))
               else Return false) ;;
     if found : bool
     then
       profile <- first_item data ;;
       profile_data <- profile_data_of profile ;;
       Return (answer profile_data)
     else
       email <- get_or current_user "email" PNone ;;
       Return (answer (fallback_data user_id email)))
    (fun _ =>
       Some (email <- get_or current_user "email" PNone ;;
             Return (answer (fallback_data user_id email)))).

(** Lines 372 to 377 of [create_profile]: the row that is inserted. *)
Definition profile_row (user_id : pyval) (profile_data : pydict)
    (current_user : pyval) : result pydict :=
  let profile_data := dict_set "user_id" user_id profile_data in
  if negb (truthy (dict_get "email" profile_data))
  then
    email <- get_or current_user "email" PNone ;;
    Return (dict_set "email" email profile_data)
  else Return profile_data.

(** [create_profile], lines 357 to 397, given its [current_user]:
    [get_client] is what making the client comes to, [insert row] what
    the insertion of [row] gives as [response.data]. *)
Definition create_profile (get_client : result unit)
    (insert : pydict -> result pyval) (profile_data : pydict)
    (current_user : pyval) : result ErrorSanitizer.JSONResponse :=
  try_except
    (user_id <- subscript current_user "user_id" ;;
     get_client ;;;
     row <- profile_row user_id profile_data current_user ;;
     data <- insert row ;;
     if truthy data
     then
       profile <- first_item data ;;
       Return {| ErrorSanitizer.response_code := 201;
                 ErrorSanitizer.content :=
                   [("success", PBool true);
                    ("message", PStr "Profile created successfully");
                    ("profile", profile)] |}
     else Raise (HTTPException 500 "Failed to create profile"))
    (fun e =>
       Some (Raise (HTTPException 500 ("Failed to create profile: " ++ exn_str e)))).

End Users.

(** The [DescriboException] an exception of the model stands for: of
    the classes of [exceptions.py] the modules above raise
    [AuthenticationError], whose constructor sets the status 401. *)
Definition as_describo (e : exn) : option ErrorSanitizer.DescriboException :=
  match e with
  | AuthenticationError m =>
      Some {| ErrorSanitizer.message := m; ErrorSanitizer.status_code := 401 |}
  | _ => None
  end.

(** ** Example platforms and states *)

(** A platform whose JOSE codec answers every token with the same header
    and claims, and whose JSON decoder answers every text with [body]. *)
Definition constant_platform (header payload : pydict) (good : bool)
    (body : option pyval) : Platform :=
  {| jws_load := fun _ => inr header;
     jws_signature_ok := fun _ _ _ => Return good;
     jws_payload := fun _ => inr payload;
     ec_from_jwk := fun jwk => Return (ECKey jwk);
     json_loads := fun _ => body;
     session_retrieve := fun _ => None;
     handle_checkout_completed := fun _ => true;
     handle_subscription_updated := fun _ => true;
     handle_invoice_payment_failed := fun _ => true |}.

Definition example_settings : Settings :=
  {| supabase_url := "https://project.supabase.co";
     supabase_secret_key := "0123456789abcdef0123456789abcdef";
     STRIPE_WEBHOOK_SECRET := Value (Some "whsec_test") |}.

(** The state of a freshly started process, before the first fetch. *)
Definition fresh_world : Security.world :=
  {| Security.jwks_cache := Security.initial_cache; Security.http_gets := 0 |}.

(** A platform on which every token carries an ES256 header with [kid]
    ["k1"], a good signature and the given claims. *)
Definition es256_platform (payload : pydict) : Platform :=
  constant_platform [("alg", PStr "ES256"); ("kid", PStr "k1")] payload true None.

(** The JWKS document of a project with the single key ["k1"], and the
    state of a process that fetched it at second 900. *)
Definition example_jwks : pyval := PList [PDict [("kid", PStr "k1"); ("kty", PStr "EC")]].

Definition example_world : Security.world :=
  {| Security.jwks_cache := {| Security.keys := example_jwks; Security.last_fetched := 900 |};
     Security.http_gets := 1 |}.

(** A header whose only candidate is the right HMAC for a body signed at
    second 1000, verified at second 1200 and at second 2000. *)
Definition example_signature_header : string :=
  "t=1000,v1=291d03e2e8ca99ce6b2dd4a86974b888822bbc53e44c7c5718da223c4c86d444".

(** A platform on which the retrieval of a checkout session gives the
    session with its line items, and on which
    [handle_checkout_completed] fails on a session with line items and
    returns on one without. *)
Definition retrieving_platform : Platform :=
  {| jws_load := fun _ => inl "Not enough segments";
     jws_signature_ok := fun _ _ _ => Return false;
     jws_payload := fun _ => inl "Not enough segments";
     ec_from_jwk := fun jwk => Return (ECKey jwk);
     json_loads := fun _ => None;
     session_retrieve :=
       fun session_id => Some (PDict [("id", session_id); ("line_items", PDict [])]);
     handle_checkout_completed :=
       fun session => match dict_lookup "line_items"
                              (match session with PDict d => d | _ => [] end) with
                      | Some _ => false
                      | None => true
                      end;
     handle_subscription_updated := fun _ => true;
     handle_invoice_payment_failed := fun _ => true |}.

(** A failed invoice payment as Stripe sends it, and a platform whose JSON
    decoder reads it from every body. *)
Definition example_event : pydict :=
  [("id", PStr "evt_1");
   ("type", PStr "invoice.payment_failed");
   ("data", PDict [("object", PDict [("id", PStr "in_1")])])].

Definition event_platform : Platform :=
  constant_platform [] [] true (Some (PDict example_event)).

(** A token with a subject and without a role claim. *)
Definition example_claims : pydict :=
  [("sub", PStr "u1"); ("aud", PStr "authenticated"); ("exp", PInt 2000)].

Definition hs256_platform (payload : pydict) : Platform :=
  constant_platform [("alg", PStr "HS256")] payload true None.

(** * Properties *)

Arguments Hmac.sha256_hex : simpl never.

(** ** Known answers for the hash functions *)

Example sha256_abc :
  Sha256.hexdigest "abc"
  = "ba7816bf8f01cfea414140de5dae2223b00361a396177a9cb410ff61f20015ad".
Proof. vm_compute. reflexivity. Qed.

Example hmac_sha256_rfc4231_case2 :
  Hmac.sha256_hex "Jefe" "what do ya want for nothing?"
  = "5bdcc146bf60754e6a042426089575c75a003f089d2739839dec58b964ec3843".
Proof. vm_compute. reflexivity. Qed.

(** ** Comparisons *)

Lemma Qlt_bool_true (x y : Q) : Qlt_bool x y = true <-> (x < y)%Q.
Proof.
  unfold Qlt_bool. rewrite negb_true_iff. split.
  - intros H. apply Qnot_le_lt. intros Hle.
    apply Qle_bool_iff in Hle. congruence.
  - intros H. destruct (Qle_bool y x) eqn:E; [|reflexivity].
    apply Qle_bool_iff in E. exfalso. apply (Qlt_not_le _ _ H E).
Qed.

Lemma Qlt_bool_false (x y : Q) : Qlt_bool x y = false <-> (y <= x)%Q.
Proof.
  unfold Qlt_bool. rewrite negb_false_iff. apply Qle_bool_iff.
Qed.

Lemma Qle_bool_false (x y : Q) : Qle_bool x y = false <-> (y < x)%Q.
Proof.
  split.
  - intros H. apply Qnot_le_lt. intros Hle. apply Qle_bool_iff in Hle. congruence.
  - intros H. destruct (Qle_bool x y) eqn:E; [|reflexivity].
    apply Qle_bool_iff in E. exfalso. apply (Qlt_not_le _ _ H E).
Qed.

(** ** [get_current_user] *)

Section DepsProperties.
Context {P : Platform}.
Variable settings : Settings.

Lemma decode_user_info_cases (now : Q) (token : string) :
  (exists e, Deps.decode_user_info settings now token = Raise e)
  \/ (exists user_id email role,
        Deps.decode_user_info settings now token
        = Return (PDict [("user_id", user_id); ("email", email); ("role", role)])
        /\ truthy user_id = true).
Proof.
  unfold Deps.decode_user_info.
  destruct (PyJWT.decode token _ _ _ _ now) as [payload|e]; cbn [bind].
  - cbn [dict_get dict_lookup String.eqb Ascii.eqb Bool.eqb].
    destruct (truthy (dict_get "sub" payload)) eqn:Hsub; cbn [negb].
    + right. eauto.
    + left. eauto.
  - left. eauto.
Qed.

(** C10.  For every call, [get_current_user] raises or returns a
    user-info dict whose ["user_id"] is non-empty; it never returns
    [None].  The guard of the [OPTIONS] branch compares the class
    attribute [Request.method], a property object, with a string, which
    is false on every call. *)
Theorem get_current_user_never_none (now : Q) (credentials : string) :
  Deps.attr_eq_str Deps.Request_method "OPTIONS" = false
  /\ Deps.get_current_user settings now credentials <> Return PNone
  /\ ((exists e, Deps.get_current_user settings now credentials = Raise e)
      \/ (exists user_id email role,
            Deps.get_current_user settings now credentials
            = Return (PDict [("user_id", user_id); ("email", email); ("role", role)])
            /\ truthy user_id = true)).
Proof.
  split; [reflexivity|].
  assert (H : (exists e, Deps.get_current_user settings now credentials = Raise e)
      \/ (exists user_id email role,
            Deps.get_current_user settings now credentials
            = Return (PDict [("user_id", user_id); ("email", email); ("role", role)])
            /\ truthy user_id = true)).
  { unfold Deps.get_current_user. cbn [Deps.attr_eq_str Deps.Request_method].
    destruct (decode_user_info_cases now credentials) as [[e He]|(u & m & r & He & Hu)];
      rewrite He; cbn [try_except].
    - left. destruct e; cbn; eauto.
    - right. eauto. }
  split; [|exact H].
  destruct H as [[e He]|(u & m & r & He & _)]; rewrite He; discriminate.
Qed.

(** The subject check of [get_current_user]: a token that decodes but
    whose [sub] is absent or falsy is answered with an
    [AuthenticationError], status 401. *)
Lemma get_current_user_requires_subject (now : Q) (token : string) (payload : pydict) :
  PyJWT.decode token (SecretKey (supabase_secret_key settings))
    ["HS256"] "authenticated" 10 now = Return payload ->
  truthy (dict_get "sub" payload) = false ->
  Deps.get_current_user settings now token
  = Raise (AuthenticationError "Authentication failed: Invalid token: missing user ID")
  /\ response_status
       (AuthenticationError "Authentication failed: Invalid token: missing user ID") = 401.
Proof.
  intros Hdec Hsub. split; [|reflexivity].
  unfold Deps.get_current_user, Deps.decode_user_info.
  cbn [Deps.attr_eq_str Deps.Request_method]. rewrite Hdec. cbn [bind].
  cbn [dict_get dict_lookup String.eqb Ascii.eqb Bool.eqb].
  rewrite Hsub. reflexivity.
Qed.

End DepsProperties.

(** The token [{sub: "", email: "a@b.com"}], correctly signed, is refused
    by [get_current_user]. *)
Example get_current_user_empty_subject :
  @Deps.get_current_user
    (constant_platform [("alg", PStr "HS256")]
       [("sub", PStr ""); ("email", PStr "a@b.com"); ("aud", PStr "authenticated");
        ("exp", PInt 2000)] true None)
    example_settings 1000 "token"
  = Raise (AuthenticationError "Authentication failed: Invalid token: missing user ID").
Proof. reflexivity. Qed.


(** ** The webhook endpoint *)

Section WebhookProperties.
Context {P : Platform}.
Import Webhooks.

Lemma response_bind {A B : Type} (c : io A) (k : A -> io B) :
  response (io_bind c k)
  = match response c with
    | Return a => response (k a)
    | Raise e => Raise e
    end.
Proof.
  destruct c as [t [a|e]]; cbn; [|reflexivity].
  destruct (k a); reflexivity.
Qed.

Lemma response_try {A : Type} (c : io A) (h : exn -> option (io A)) :
  response (io_try c h)
  = match response c with
    | Return a => Return a
    | Raise e => match h e with Some c' => response c' | None => Raise e end
    end.
Proof.
  destruct c as [t [a|e]]; cbn; [reflexivity|].
  destruct (h e) as [[t' r]|]; reflexivity.
Qed.

Lemma trace_bind {A B : Type} (c : io A) (k : A -> io B) :
  trace (io_bind c k)
  = match response c with
    | Return a => (trace c ++ trace (k a))%list
    | Raise e => trace c
    end.
Proof.
  destruct c as [t [a|e]]; cbn; [|reflexivity].
  destruct (k a); reflexivity.
Qed.

(** The inline check is wrapped so that nothing of it reaches the code
    that follows: its value is dropped, and an exception it raises adds
    one log record and nothing else. *)
Lemma debug_block_wrapped (blk : io bool) :
  io_try (blk >> io_ret tt)
    (fun _ => Some (log ERROR "Debug signature verification error"))
  = ((trace blk
      ++ match response blk with
         | Return _ => []
         | Raise _ => [Log ERROR "Debug signature verification error"]
         end)%list,
     Return tt).
Proof.
  destruct blk as [t [b|e]]; reflexivity.
Qed.

Lemma debug_block_sealed (blk : io bool) :
  response (io_try (blk >> io_ret tt)
              (fun _ => Some (log ERROR "Debug signature verification error")))
  = Return tt.
Proof.
  rewrite debug_block_wrapped. reflexivity.
Qed.

Lemma response_on_error (c : io WebhookResponse) :
  response (io_try c on_error)
  = match response c with
    | Return a => Return a
    | Raise (HTTPException sc d) => Raise (HTTPException sc d)
    | Raise _ => Raise (HTTPException 500 "Webhook processing failed")
    end.
Proof.
  rewrite response_try. destruct (response c) as [a|e]; [reflexivity|].
  destruct e; reflexivity.
Qed.

(** The response of the endpoint, whatever the inline check is. *)
Lemma response_stripe_webhook_with (blk : string -> io bool)
    (settings : Settings) (t_verify : Q) (payload : string)
    (stripe_signature : option string) :
  response (stripe_webhook_with blk settings t_verify payload stripe_signature)
  = match stripe_signature with
    | None | Some EmptyString => Raise (HTTPException 400 "Missing Stripe signature")
    | Some sig_header =>
        match STRIPE_WEBHOOK_SECRET settings with
        | NoSuchAttribute => Raise (HTTPException 500 "Webhook processing failed")
        | Value None | Value (Some EmptyString) =>
            Raise (HTTPException 500 "Webhook secret not configured")
        | Value (Some secret) =>
            response (io_try
                        (event <~ official_verification secret t_verify payload sig_header ;;
                         handle_event event)
                        on_error)
        end
    end.
Proof.
  unfold stripe_webhook_with.
  destruct stripe_signature as [[|a sig]|]; [reflexivity| |reflexivity].
  destruct (STRIPE_WEBHOOK_SECRET settings) as [|[[|b secret]|]] eqn:Hs;
    [reflexivity|reflexivity| |reflexivity].
  rewrite !response_on_error.
  repeat (rewrite response_bind; cbn [log emit response snd]).
  rewrite debug_block_sealed.
  reflexivity.
Qed.


(** C8.  A request without a [stripe-signature] header, or with an empty
    one, is answered 400 "Missing Stripe signature"; the run consists of
    four log records: no keyed hash is computed, the Stripe library is
    not called and no event is dispatched. *)
Theorem missing_signature_is_400 (settings : Settings) (t_debug t_verify : Q)
    (payload : string) (stripe_signature : option string) :
  stripe_signature = None \/ stripe_signature = Some "" ->
  response (stripe_webhook settings t_debug t_verify payload stripe_signature)
  = Raise (HTTPException 400 "Missing Stripe signature")
  /\ response_status (HTTPException 400 "Missing Stripe signature") = 400
  /\ trace (stripe_webhook settings t_debug t_verify payload stripe_signature)
     = [Log INFO "Received Stripe webhook request";
        Log INFO "Webhook payload size";
        Log ERROR "Webhook rejected: Missing Stripe signature header";
        Log ERROR "Webhook HTTP error"].
Proof.
  intros [-> | ->]; repeat split; reflexivity.
Qed.

End WebhookProperties.

(** ** The digest is a lower-case hexadecimal string *)








(** ** Comparing the digest with the candidates *)



(** A match reported by the comparison is a candidate of the header. *)
Lemma any_equal_true_In (expected : string) (sigs : list string) :
  Hmac.any_equal expected sigs = Return true -> In expected sigs.
Proof.
  induction sigs as [|s r IH]; cbn [Hmac.any_equal]; [discriminate|].
  unfold Hmac.compare_digest.
  destruct (is_ascii_str expected && is_ascii_str s); [|discriminate].
  destruct (expected =? s)%string eqn:E.
  - intros _. left. symmetry. apply String.eqb_eq. exact E.
  - intros H. right. auto.
Qed.

(** ** Verification by the Stripe library *)

Section StripeProperties.
Context {P : Platform}.
Import Webhooks.

(** [verify_header] once the header has been parsed. *)
Lemma verify_header_parsed (text header secret : string) (tolerance now : Q)
    (T : Z) (sigs : list string) :
  Stripe.get_timestamp_and_signatures header "v1" = Return (T, sigs) ->
  Stripe.verify_header text header secret tolerance now
  = match sigs with
    | [] => Raise (SignatureVerificationError
                     "No signatures found with expected scheme v1")
    | _ :: _ =>
        m <- Hmac.any_equal
               (Hmac.sha256_hex secret (str_of_int T ++ "." ++ text)) sigs ;;
        if negb m
        then Raise (SignatureVerificationError
               "No signatures found matching the expected signature for payload")
        else if negb (Qeq_bool tolerance 0)
                && Qlt_bool (inject_Z T) (now - tolerance)
        then Raise (SignatureVerificationError
                      "Timestamp outside the tolerance zone")
        else Return true
    end.
Proof.
  intros H. unfold Stripe.verify_header, Stripe.EXPECTED_SCHEME.
  rewrite H. reflexivity.
Qed.

(** A header that parses is not empty. *)
Lemma parsed_header_not_empty (header : string) (T : Z) (sigs : list string) :
  Stripe.get_timestamp_and_signatures header "v1" = Return (T, sigs) ->
  header <> "".
Proof. intros H ->. discriminate H. Qed.

Lemma any_equal_raises (expected : string) (sigs : list string) (e : exn) :
  Hmac.any_equal expected sigs = Raise e -> exists m, e = TypeError m.
Proof.
  induction sigs as [|c l IH]; cbn [Hmac.any_equal]; [discriminate|].
  unfold Hmac.compare_digest.
  destruct (is_ascii_str expected && is_ascii_str c).
  - destruct (expected =? c)%string; [discriminate|exact IH].
  - intros [= <-]. eauto.
Qed.

(** A timestamp older than the tolerance makes [verify_header] raise,
    whatever the signatures are. *)
Lemma stale_header_raises (text header secret : string) (now : Q)
    (T : Z) (sigs : list string) :
  Stripe.get_timestamp_and_signatures header "v1" = Return (T, sigs) ->
  (inject_Z T < now - 300)%Q ->
  exists e, Stripe.verify_header text header secret Stripe.DEFAULT_TOLERANCE now
            = Raise e
            /\ exists m, e = SignatureVerificationError m \/ e = TypeError m.
Proof.
  intros Hp Hold. rewrite (verify_header_parsed _ _ _ _ _ _ _ Hp).
  destruct sigs as [|s r]; [eexists; split; [reflexivity|eauto]|].
  destruct (Hmac.any_equal _ (s :: r)) as [[|]|e] eqn:E; cbn [bind negb].
  - apply Qlt_bool_true in Hold. unfold Stripe.DEFAULT_TOLERANCE.
    rewrite Hold. eexists; split; [reflexivity|eauto].
  - eexists; split; [reflexivity|eauto].
  - exists e. split; [reflexivity|].
    apply any_equal_raises in E. destruct E as [m ->]. eauto.
Qed.

Lemma response_official_verification (secret : string) (t_verify : Q)
    (payload sig_header : string) :
  response (official_verification secret t_verify payload sig_header)
  = match Stripe.construct_event payload sig_header secret t_verify with
    | Return event => Return event
    | Raise (ValueError _) => Raise (HTTPException 400 "Invalid payload")
    | Raise (SignatureVerificationError _) =>
        Raise (HTTPException 400 "Invalid signature")
    | Raise e => Raise e
    end.
Proof.
  unfold official_verification. rewrite response_try, !response_bind.
  cbn [emit response snd lift].
  destruct (Stripe.construct_event payload sig_header secret t_verify) as [ev|e];
    [reflexivity|].
  destruct e; reflexivity.
Qed.

(** The response to a request whose verification raises. *)
Lemma response_when_verification_raises (settings : Settings)
    (t_debug t_verify : Q) (payload sig_header secret : string) (e : exn) :
  sig_header <> "" ->
  STRIPE_WEBHOOK_SECRET settings = Value (Some secret) -> secret <> "" ->
  Stripe.construct_event payload sig_header secret t_verify = Raise e ->
  response (stripe_webhook settings t_debug t_verify payload (Some sig_header))
  = match e with
    | ValueError _ => Raise (HTTPException 400 "Invalid payload")
    | SignatureVerificationError _ => Raise (HTTPException 400 "Invalid signature")
    | HTTPException sc d => Raise (HTTPException sc d)
    | _ => Raise (HTTPException 500 "Webhook processing failed")
    end.
Proof.
  intros Hsig Hs Hsecret He. unfold stripe_webhook.
  rewrite response_stripe_webhook_with, Hs.
  destruct sig_header; [congruence|]. destruct secret; [congruence|].
  rewrite response_on_error, response_bind, response_official_verification, He.
  destruct e; reflexivity.
Qed.

End StripeProperties.

Section Freshness.
Context {P : Platform}.
Import Webhooks.

(** C3.  A request whose signature header carries a timestamp more than
    300 seconds (the tolerance of the Stripe library) before the clock
    reading of the verification is rejected: the response is an HTTP
    error, 400 or 500, never a success.  This holds even when the
    signature is valid: with the secret configured, a UTF-8 body and a
    candidate of the header equal to the HMAC of the signed text, the
    response is 400 "Invalid signature". *)
Theorem stale_webhook_rejected (settings : Settings) (t_debug t_verify : Q)
    (payload sig_header : string) (T : Z) (sigs : list string) :
  Stripe.get_timestamp_and_signatures sig_header "v1" = Return (T, sigs) ->
  (inject_Z T < t_verify - 300)%Q ->
  (exists sc detail,
     response (stripe_webhook settings t_debug t_verify payload (Some sig_header))
     = Raise (HTTPException sc detail)
     /\ (sc = 400 \/ sc = 500))
  /\ (forall secret : string,
        STRIPE_WEBHOOK_SECRET settings = Value (Some secret) -> secret <> "" ->
        utf8_valid (bytes_of payload) = true ->
        Hmac.any_equal (Hmac.sha256_hex secret (str_of_int T ++ "." ++ payload)) sigs
        = Return true ->
        response (stripe_webhook settings t_debug t_verify payload (Some sig_header))
        = Raise (HTTPException 400 "Invalid signature")).
Proof.
  intros Hp Hold.
  pose proof (parsed_header_not_empty _ _ _ Hp) as Hne.
  split.
  - destruct (STRIPE_WEBHOOK_SECRET settings) as [|[secret|]] eqn:Hs.
    + unfold stripe_webhook. rewrite response_stripe_webhook_with, Hs.
      destruct sig_header; [congruence|]. eauto.
    + destruct (String.eqb_spec secret "") as [->|Hsecret].
      * unfold stripe_webhook. rewrite response_stripe_webhook_with, Hs.
        destruct sig_header; [congruence|]. eauto.
      * assert (He : exists e,
                   Stripe.construct_event payload sig_header secret t_verify = Raise e
                   /\ exists m, e = SignatureVerificationError m \/ e = TypeError m
                                \/ e = ValueError m).
        { unfold Stripe.construct_event, utf8_decode.
          destruct (utf8_valid (bytes_of payload)); cbn [bind].
          - destruct (stale_header_raises payload sig_header secret t_verify T sigs Hp Hold)
              as (e & -> & m & [->| ->]); cbn [bind]; eauto 6.
          - eauto 6. }
        destruct He as (e & He & m & [->|[->| ->]]);
          rewrite (response_when_verification_raises _ _ _ _ _ _ _ Hne Hs Hsecret He);
          eauto.
    + unfold stripe_webhook. rewrite response_stripe_webhook_with, Hs.
      destruct sig_header; [congruence|]. eauto.
  - intros secret Hs Hsecret Hutf Hmatch.
    apply (response_when_verification_raises _ _ _ _ _ _
             (SignatureVerificationError "Timestamp outside the tolerance zone")
             Hne Hs Hsecret).
    unfold Stripe.construct_event, utf8_decode. rewrite Hutf. cbn [bind].
    rewrite (verify_header_parsed _ _ _ _ _ _ _ Hp).
    destruct sigs as [|s r]; [discriminate Hmatch|].
    rewrite Hmatch. cbn [bind negb].
    apply Qlt_bool_true in Hold. unfold Stripe.DEFAULT_TOLERANCE. rewrite Hold.
    reflexivity.
Qed.

End Freshness.

Section SignatureMatching.
Context {P : Platform}.
Import Webhooks.


End SignatureMatching.

Lemma example_signature_header_parsed :
  Stripe.get_timestamp_and_signatures example_signature_header "v1"
  = Return (1000,
            ["291d03e2e8ca99ce6b2dd4a86974b888822bbc53e44c7c5718da223c4c86d444"]).
Proof. vm_compute. reflexivity. Qed.





(** ** Expiry in [jwt.decode] *)

Section DecodeProperties.
Context {P : Platform}.

Lemma bind_Return {A B : Type} (c : result A) (k : A -> result B) (b : B) :
  bind c k = Return b -> exists a, c = Return a /\ k a = Return b.
Proof. destruct c as [a|e]; cbn; [eauto|discriminate]. Qed.

(** The checks on [iat] and [nbf] that pass at one instant pass at every
    later one. *)
Lemma validate_iat_later (payload : pydict) (leeway t0 now : Q) :
  (t0 <= now)%Q ->
  PyJWT.validate_iat payload t0 leeway = Return tt ->
  PyJWT.validate_iat payload now leeway = Return tt.
Proof.
  intros Hle. unfold PyJWT.validate_iat.
  destruct (dict_lookup "iat" payload) as [v|]; [|reflexivity].
  destruct (PyJWT.int_claim "iat" v) as [iat|e]; cbn [bind]; [|discriminate].
  destruct (Qlt_bool (t0 + leeway) (inject_Z iat)) eqn:E0; [discriminate|].
  intros _. apply Qlt_bool_false in E0.
  destruct (Qlt_bool (now + leeway) (inject_Z iat)) eqn:E1; [|reflexivity].
  apply Qlt_bool_true in E1. lra.
Qed.

Lemma validate_nbf_later (payload : pydict) (leeway t0 now : Q) :
  (t0 <= now)%Q ->
  PyJWT.validate_nbf payload t0 leeway = Return tt ->
  PyJWT.validate_nbf payload now leeway = Return tt.
Proof.
  intros Hle. unfold PyJWT.validate_nbf.
  destruct (dict_lookup "nbf" payload) as [v|]; [|reflexivity].
  destruct (PyJWT.int_claim "nbf" v) as [nbf|e]; cbn [bind]; [|discriminate].
  destruct (Qlt_bool (t0 + leeway) (inject_Z nbf)) eqn:E0; [discriminate|].
  intros _. apply Qlt_bool_false in E0.
  destruct (Qlt_bool (now + leeway) (inject_Z nbf)) eqn:E1; [|reflexivity].
  apply Qlt_bool_true in E1. lra.
Qed.

(** The expiry check for a token whose [exp] claim reads as the integer
    [exp]. *)
Lemma validate_exp_int (payload : pydict) (v : pyval) (exp : Z) (leeway now : Q) :
  dict_lookup "exp" payload = Some v ->
  PyJWT.int_claim "exp" v = Return exp ->
  PyJWT.validate_exp payload now leeway
  = if Qle_bool (inject_Z exp) (now - leeway)
    then Raise (ExpiredSignatureError "Signature has expired")
    else Return tt.
Proof.
  intros Hv He. unfold PyJWT.validate_exp. rewrite Hv, He. reflexivity.
Qed.

(** What a successful [decode] has established. *)
Lemma decode_Return (token : string) (key : jwt_key) (algorithms : list string)
    (audience : string) (leeway now : Q) (payload : pydict) :
  PyJWT.decode token key algorithms audience leeway now = Return payload ->
  PyJWT.validate_claims payload audience leeway now = Return tt
  /\ forall t : Q,
       PyJWT.decode token key algorithms audience leeway t
       = (PyJWT.validate_claims payload audience leeway t ;;; Return payload).
Proof.
  unfold PyJWT.decode.
  destruct (jws_load token) as [msg|header]; [discriminate|].
  destruct (PyJWT.str_in algorithms (dict_get "alg" header)) as [alg|]; [|discriminate].
  destruct (jws_signature_ok alg token key) as [[|]|e]; cbn [bind negb];
    [|discriminate|discriminate].
  destruct (jws_payload token) as [msg|p]; [discriminate|].
  destruct (PyJWT.validate_claims p audience leeway now) as [[]|e] eqn:E;
    cbn [bind]; [|discriminate].
  intros [= <-]. split; [exact E|reflexivity].
Qed.

(** A token that [decode] accepts at [t0] and whose [exp] claim reads as
    [exp] is, at any later instant [now], rejected as expired when
    [exp <= now - leeway] and accepted with the same claims otherwise. *)
Lemma decode_later (token : string) (key : jwt_key) (algorithms : list string)
    (audience : string) (leeway t0 now : Q) (payload : pydict) (v : pyval) (exp : Z) :
  (t0 <= now)%Q ->
  PyJWT.decode token key algorithms audience leeway t0 = Return payload ->
  dict_lookup "exp" payload = Some v ->
  PyJWT.int_claim "exp" v = Return exp ->
  PyJWT.decode token key algorithms audience leeway now
  = if Qle_bool (inject_Z exp) (now - leeway)
    then Raise (ExpiredSignatureError "Signature has expired")
    else Return payload.
Proof.
  intros Hle Hdec Hv He.
  destruct (decode_Return _ _ _ _ _ _ _ Hdec) as [Hval Heq].
  rewrite Heq. clear Heq Hdec.
  unfold PyJWT.validate_claims in *.
  apply bind_Return in Hval. destruct Hval as ([] & Hiat & Hval).
  apply bind_Return in Hval. destruct Hval as ([] & Hnbf & Hval).
  apply bind_Return in Hval. destruct Hval as ([] & Hexp & Haud).
  rewrite (validate_iat_later _ _ _ _ Hle Hiat). cbn [bind].
  rewrite (validate_nbf_later _ _ _ _ Hle Hnbf). cbn [bind].
  rewrite (validate_exp_int _ _ _ _ _ Hv He).
  destruct (Qle_bool (inject_Z exp) (now - leeway)); cbn [bind]; [reflexivity|].
  rewrite Haud. reflexivity.
Qed.

End DecodeProperties.

(** ** The leeway of [get_current_user] *)

Section LeewayProperties.
Context {P : Platform}.
Variable settings : Settings.

(** The dependency used by the routes allows ten seconds of clock skew: a
    token accepted at [t0] whose [exp] claim reads as [exp] is answered
    401 "Token has expired" from eleven seconds after [exp] on, and is
    still accepted less than ten seconds after it. *)
Lemma get_current_user_leeway (t0 now : Q) (token : string) (payload : pydict)
    (v : pyval) (exp : Z) :
  (t0 <= now)%Q ->
  PyJWT.decode token (SecretKey (supabase_secret_key settings))
    ["HS256"] "authenticated" 10 t0 = Return payload ->
  dict_lookup "exp" payload = Some v ->
  PyJWT.int_claim "exp" v = Return exp ->
  ((inject_Z exp + 10 + 1 <= now)%Q ->
   Deps.get_current_user settings now token
   = Raise (HTTPException 401 "Token has expired"))
  /\ ((now - inject_Z exp < 10)%Q ->
      truthy (dict_get "sub" payload) = true ->
      Deps.get_current_user settings now token
      = Return (PDict [("user_id", dict_get "sub" payload);
                       ("email", dict_get "email" payload);
                       ("role", dict_get_default "role" (PStr "authenticated") payload)])).
Proof.
  intros Hle Hdec Hv He.
  pose proof (decode_later _ _ _ _ _ _ _ _ _ _ Hle Hdec Hv He) as Hnow.
  unfold Deps.get_current_user, Deps.decode_user_info.
  cbn [Deps.attr_eq_str Deps.Request_method]. rewrite Hnow. split.
  - intros Hexp.
    assert (E : Qle_bool (inject_Z exp) (now - 10) = true)
      by (apply Qle_bool_iff; lra).
    rewrite E. reflexivity.
  - intros Hexp Hsub.
    assert (E : Qle_bool (inject_Z exp) (now - 10) = false)
      by (apply Qle_bool_false; lra).
    rewrite E. cbn [bind dict_get dict_lookup String.eqb Ascii.eqb Bool.eqb].
    fold (dict_get "sub" payload). rewrite Hsub. reflexivity.
Qed.

End LeewayProperties.

(** ** The key-set cache *)

Section CacheProperties.
Import Security.

Lemma cache_fresh_guard (now : Q) (c : jwks_cache_t) :
  cache_fresh now c <->
  negb (truthy (keys c)) || Qlt_bool CACHE_LIFETIME_SECONDS (now - last_fetched c) = false.
Proof.
  unfold cache_fresh. rewrite orb_false_iff, negb_false_iff, Qlt_bool_false.
  reflexivity.
Qed.

(** A call on a fresh cache returns the cached keys and touches nothing:
    no request is sent, whatever the endpoint would answer. *)
Lemma get_jwks_hit (now : Q) (remote : fetch_outcome) (w : world) :
  cache_fresh now (jwks_cache w) ->
  get_jwks now remote w = (Return (keys (jwks_cache w)), w).
Proof.
  intros H. apply cache_fresh_guard in H. unfold get_jwks. rewrite H. reflexivity.
Qed.

(** A call on an empty or outdated cache sends exactly one request. *)
Lemma get_jwks_miss (now : Q) (remote : fetch_outcome) (w : world) :
  ~ cache_fresh now (jwks_cache w) ->
  http_gets (snd (get_jwks now remote w)) = S (http_gets w)
  /\ fst (get_jwks now remote w)
     = match fetch_keys remote with
       | Return ks => Return ks
       | Raise (RequestException msg) =>
           Raise (HTTPException 503 ("Could not fetch JWKS: " ++ msg))
       | Raise e => Raise e
       end
  /\ jwks_cache (snd (get_jwks now remote w))
     = match fetch_keys remote with
       | Return ks => {| keys := ks; last_fetched := now |}
       | Raise _ => jwks_cache w
       end.
Proof.
  intros H. rewrite cache_fresh_guard in H. apply not_false_is_true in H.
  unfold get_jwks. rewrite H.
  destruct (fetch_keys remote) as [ks|e]; [repeat split; reflexivity|].
  destruct e; repeat split; reflexivity.
Qed.

(** The three failures that [get_jwks] handles: a network error, an error
    status and a body that is not JSON are answered 503, and the cache is
    left as it was. *)
Lemma get_jwks_request_failure (now : Q) (remote : fetch_outcome) (w : world)
    (msg : string) :
  ~ cache_fresh now (jwks_cache w) ->
  remote = NetworkError msg \/ remote = BadStatus msg \/ remote = BodyNotJson msg ->
  fst (get_jwks now remote w)
  = Raise (HTTPException 503 ("Could not fetch JWKS: " ++ msg))
  /\ jwks_cache (snd (get_jwks now remote w)) = jwks_cache w.
Proof.
  intros Hmiss Hr.
  destruct (get_jwks_miss now remote w Hmiss) as (_ & Hres & Hcache).
  rewrite Hres, Hcache. destruct Hr as [->|[->| ->]]; split; reflexivity.
Qed.

(** C4, where the code departs from it.  When the endpoint answers with a
    JSON object that has no ["keys"] member, a call that fetches does not
    fail with 503: the [KeyError] of the subscript is not a
    [RequestException], leaves [get_jwks] as it is and is answered 500.
    When ["keys"] is present but is not a list of keys, the value is
    stored in the cache and returned. *)
Theorem get_jwks_malformed_body (now : Q) (w : world) :
  ~ cache_fresh now (jwks_cache w) ->
  (forall body : pydict,
     dict_lookup "keys" body = None ->
     fst (get_jwks now (BodyJson (PDict body)) w) = Raise (KeyError "keys")
     /\ response_status (KeyError "keys") = 500)
  /\ (forall v : pyval,
        get_jwks now (BodyJson (PDict [("keys", v)])) w
        = (Return v,
           {| jwks_cache := {| keys := v; last_fetched := now |};
              http_gets := S (http_gets w) |})).
Proof.
  intros Hmiss. rewrite cache_fresh_guard in Hmiss. apply not_false_is_true in Hmiss.
  split.
  - intros body Hb. split; [|reflexivity].
    unfold get_jwks. rewrite Hmiss. cbn [fetch_keys subscript]. rewrite Hb.
    reflexivity.
  - intros v. unfold get_jwks. rewrite Hmiss. reflexivity.
Qed.

(** C5, amended.  After a call that fetched a non-empty key set [ks] at
    [t0], every later call within the lifetime ([now - t0 <= 3600])
    returns [ks] without sending a request, however many such calls are
    made; a call after the lifetime sends exactly one request. *)
Theorem cache_served_within_lifetime (t0 : Q) (remote0 : fetch_outcome)
    (w w1 : world) (ks : pyval) :
  get_jwks t0 remote0 w = (Return ks, w1) ->
  http_gets w1 = S (http_gets w) ->
  truthy ks = true ->
  (forall calls : list (Q * fetch_outcome),
     Forall (fun c => (fst c - t0 <= 3600)%Q) calls ->
     get_jwks_calls calls w1 = (map (fun _ => Return ks) calls, w1))
  /\ (forall (now : Q) (remote : fetch_outcome),
        (3600 < now - t0)%Q ->
        http_gets (snd (get_jwks now remote w1)) = S (http_gets w1)).
Proof.
  intros Hcall Hget Hks.
  assert (Hc : jwks_cache w1 = {| keys := ks; last_fetched := t0 |}).
  { revert Hcall. unfold get_jwks.
    destruct (negb (truthy (keys (jwks_cache w)))
              || Qlt_bool CACHE_LIFETIME_SECONDS (t0 - last_fetched (jwks_cache w))).
    - destruct (fetch_keys remote0) as [k|e].
      + intros [= <- <-]. reflexivity.
      + destruct e; discriminate.
    - intros [= _ <-]. exfalso. clear - Hget. lia. }
  split.
  - induction 1 as [|[now remote] rest Hnow _ IH]; [reflexivity|].
    cbn [get_jwks_calls map]. cbn [fst] in Hnow.
    rewrite get_jwks_hit.
    + rewrite IH, Hc. reflexivity.
    + rewrite Hc. split; [exact Hks|exact Hnow].
  - intros now remote Hlate. apply get_jwks_miss.
    rewrite Hc. intros [_ H]. cbn [last_fetched] in H.
    unfold CACHE_LIFETIME_SECONDS in H. lra.
Qed.

End CacheProperties.

(** C5, as stated, fails: the endpoint answers 200 with an empty key list,
    the fetch succeeds, and the call one second later sends a second
    request. *)
Lemma empty_key_set_not_cached :
  let body := BodyJson (PDict [("keys", PList [])]) in
  let w1 := snd (Security.get_jwks 100 body fresh_world) in
  fst (Security.get_jwks 100 body fresh_world) = Return (PList [])
  /\ Security.http_gets w1 = 1%nat
  /\ Security.last_fetched (Security.jwks_cache w1) = 100%Q
  /\ (101 - 100 <= 3600)%Q
  /\ Security.http_gets (snd (Security.get_jwks 101 body w1)) = 2%nat.
Proof.
  cbv zeta. repeat split; try reflexivity. unfold Qle. simpl. lia.
Qed.

Lemma cache_served_within_lifetime_witness :
  let body := BodyJson (PDict [("keys", PList [PDict [("kid", PStr "k1")]])]) in
  let ks := PList [PDict [("kid", PStr "k1")]] in
  let w1 := {| Security.jwks_cache := {| Security.keys := ks; Security.last_fetched := 100 |};
               Security.http_gets := 1 |} in
  Security.get_jwks 100 body fresh_world = (Return ks, w1)
  /\ Security.http_gets w1 = S (Security.http_gets fresh_world)
  /\ truthy ks = true
  /\ Security.get_jwks_calls [(101%Q, NetworkError "down"); (3700%Q, body)] w1
     = ([Return ks; Return ks], w1)
  /\ Security.http_gets (snd (Security.get_jwks 3701 body w1)) = 2%nat.
Proof.
  cbv zeta.
  pose proof (cache_served_within_lifetime 100
                (BodyJson (PDict [("keys", PList [PDict [("kid", PStr "k1")]])]))
                fresh_world
                {| Security.jwks_cache :=
                     {| Security.keys := PList [PDict [("kid", PStr "k1")]];
                        Security.last_fetched := 100 |};
                   Security.http_gets := 1 |}
                (PList [PDict [("kid", PStr "k1")]])
                eq_refl eq_refl eq_refl) as [Hin Hout].
  split; [reflexivity|]. split; [reflexivity|]. split; [reflexivity|]. split.
  - apply (Hin [(101%Q, NetworkError "down"); (3700%Q, BodyJson _)]).
    repeat constructor; cbn [fst]; unfold Qle; simpl; lia.
  - apply Hout. unfold Qlt. simpl. lia.
Defined.

Lemma get_jwks_malformed_body_witness :
  ~ Security.cache_fresh 1000 (Security.jwks_cache fresh_world)
  /\ fst (Security.get_jwks 1000 (BodyJson (PDict [])) fresh_world)
     = Raise (KeyError "keys")
  /\ Security.get_jwks 1000 (BodyJson (PDict [("keys", PStr "oops")])) fresh_world
     = (Return (PStr "oops"),
        {| Security.jwks_cache :=
             {| Security.keys := PStr "oops"; Security.last_fetched := 1000 |};
           Security.http_gets := 1 |}).
Proof.
  assert (Hmiss : ~ Security.cache_fresh 1000 (Security.jwks_cache fresh_world)).
  { intros [H _]. discriminate H. }
  destruct (get_jwks_malformed_body 1000 fresh_world Hmiss) as [Hno Hbad].
  split; [exact Hmiss|]. split.
  - apply (Hno []). reflexivity.
  - apply (Hbad (PStr "oops")).
Defined.

(** ** [verify_token] *)

Section VerifyTokenProperties.
Context {P : Platform}.
Import Security.

(** A key set in which every key has a [kid] and none equals the
    token's: no signing key is found. *)
Lemma find_signing_key_none (kid : string) (items : list pyval) :
  Forall (fun key => exists k, subscript key "kid" = Return k
                               /\ PyJWT.str_is kid k = false) items ->
  find_signing_key kid items = Return None.
Proof.
  induction 1 as [|key rest (k & Hk & Hne) _ IH]; [reflexivity|].
  cbn [find_signing_key]. rewrite Hk. cbn [bind]. rewrite Hne. exact IH.
Qed.

(** What [verify_token] answers once the key set is at hand and the
    header of the token names a [kid]. *)
Lemma verify_token_with_keys (t_jwks t_jwt : Q) (remote : fetch_outcome)
    (auth_header : option string) (w w' : world) (token kid : string)
    (header : pydict) (items : list pyval) :
  bearer_token auth_header = Some token ->
  get_jwks t_jwks remote w = (Return (PList items), w') ->
  jws_load token = inr header ->
  dict_lookup "kid" header = Some (PStr kid) ->
  kid <> "" ->
  verify_token t_jwks t_jwt remote auth_header w
  = (match find_signing_key kid items with
     | Return None =>
         Raise (HTTPException 401 "Invalid token: Signing key not found in JWKS")
     | Return (Some signing_key) =>
         match PyJWT.decode token signing_key ["ES256"] "authenticated" 0 t_jwt with
         | Return payload =>
             Return (PDict [("user", PDict payload); ("token", PStr token)])
         | Raise (ExpiredSignatureError _) =>
             Raise (HTTPException 401 "Token has expired")
         | Raise (InvalidTokenError msg) =>
             Raise (HTTPException 401 ("Invalid token: " ++ msg))
         | Raise e => Raise e
         end
     | Raise (ExpiredSignatureError _) =>
         Raise (HTTPException 401 "Token has expired")
     | Raise (InvalidTokenError msg) =>
         Raise (HTTPException 401 ("Invalid token: " ++ msg))
     | Raise e => Raise e
     end, w').
Proof.
  intros Hb Hj Hl Hk Hne.
  unfold verify_token, verify_token_body. rewrite Hb, Hj. cbn [bind].
  unfold PyJWT.get_unverified_header. rewrite Hl, Hk. cbn [bind].
  unfold dict_get. rewrite Hk. cbn [truthy].
  destruct (String.eqb_spec kid "") as [|_]; [contradiction|]. cbn [negb iterate bind].
  destruct (find_signing_key kid items) as [[key|]|e]; cbn [bind try_except].
  - destruct (PyJWT.decode token key ["ES256"] "authenticated" 0 t_jwt) as [p|e];
      cbn [bind try_except]; [reflexivity|]. destruct e; reflexivity.
  - reflexivity.
  - destruct e; reflexivity.
Qed.

(** What a subscript raises: a [KeyError] or a [TypeError], both of
    which are answered 500. *)
Lemma subscript_raises (v : pyval) (k : string) (e : exn) :
  subscript v k = Raise e ->
  (exists k', e = KeyError k') \/ (exists m, e = TypeError m).
Proof.
  destruct v as [|b|z|q|s|l|d]; cbn [subscript];
    try (intros [= <-]; right; eauto).
  destruct (dict_lookup k d); [discriminate|]. intros [= <-]. left. eauto.
Qed.

(** The key search fails with what the subscript of the first key
    without a readable [kid] raises, when no key ahead of it matches. *)
Lemma find_signing_key_raises (kid : string) (pre : list pyval) (key : pyval)
    (rest : list pyval) (e : exn) :
  Forall (fun k => exists v, subscript k "kid" = Return v
                             /\ PyJWT.str_is kid v = false) pre ->
  subscript key "kid" = Raise e ->
  find_signing_key kid (pre ++ key :: rest)%list = Raise e.
Proof.
  intros Hpre He.
  induction Hpre as [|k pre (v & Hv & Hne) _ IH]; cbn [app find_signing_key].
  - rewrite He. reflexivity.
  - rewrite Hv. cbn [bind]. rewrite Hne. exact IH.
Qed.

(** C7, where the code departs from it.  Take a token whose header names
    a [kid] that no key of the current key set carries.  When every key
    of the set has a [kid] member the request is answered 401 with the
    detail "Invalid token: Signing key not found in JWKS" (for an empty
    [kid], "Invalid token: Token header is missing 'kid'"), whether or
    not the signature would verify and whenever the key set was fetched.
    But when the search reaches a key whose [kid] cannot be read (a key
    without that member, or an entry that is not a mapping), the
    subscript [key["kid"]] raises a [KeyError] or a [TypeError] that no
    [except] clause of [verify_token] takes: the request is answered
    500, not 401. *)
Theorem unknown_kid_not_always_401 (t_jwks t_jwt : Q) (remote : fetch_outcome)
    (auth_header : option string) (w w' : world) (token kid : string)
    (header : pydict) (items : list pyval) :
  bearer_token auth_header = Some token ->
  get_jwks t_jwks remote w = (Return (PList items), w') ->
  jws_load token = inr header ->
  dict_lookup "kid" header = Some (PStr kid) ->
  (forall key k, In key items -> subscript key "kid" = Return k ->
                 PyJWT.str_is kid k = false) ->
  (kid = "" ->
   verify_token t_jwks t_jwt remote auth_header w
   = (Raise (HTTPException 401 "Invalid token: Token header is missing 'kid'"), w'))
  /\ (kid <> "" ->
      Forall (fun key => exists k, subscript key "kid" = Return k) items ->
      verify_token t_jwks t_jwt remote auth_header w
      = (Raise (HTTPException 401 "Invalid token: Signing key not found in JWKS"), w')
      /\ response_status
           (HTTPException 401 "Invalid token: Signing key not found in JWKS") = 401)
  /\ (kid <> "" ->
      forall (pre : list pyval) (key : pyval) (rest : list pyval) (e : exn),
        items = (pre ++ key :: rest)%list ->
        Forall (fun key => exists k, subscript key "kid" = Return k) pre ->
        subscript key "kid" = Raise e ->
        verify_token t_jwks t_jwt remote auth_header w = (Raise e, w')
        /\ response_status e = 500).
Proof.
  intros Hb Hg Hl Hk Hno. split; [|split].
  - intros ->. unfold verify_token, verify_token_body. rewrite Hb, Hg. cbn [bind].
    unfold PyJWT.get_unverified_header. rewrite Hl, Hk. cbn [bind].
    unfold dict_get. rewrite Hk. reflexivity.
  - intros Hne Hall. split; [|reflexivity].
    rewrite (verify_token_with_keys _ _ _ _ _ _ _ _ _ _ Hb Hg Hl Hk Hne).
    rewrite find_signing_key_none; [reflexivity|].
    apply Forall_forall. intros key Hin.
    rewrite Forall_forall in Hall. destruct (Hall key Hin) as [k Hsub].
    exists k. split; [exact Hsub|exact (Hno key k Hin Hsub)].
  - intros Hne pre key rest e -> Hpre He.
    rewrite (verify_token_with_keys _ _ _ _ _ _ _ _ _ _ Hb Hg Hl Hk Hne).
    assert (Hpre' : Forall (fun k => exists v, subscript k "kid" = Return v
                                               /\ PyJWT.str_is kid v = false) pre).
    { apply Forall_forall. intros k0 Hin.
      rewrite Forall_forall in Hpre. destruct (Hpre k0 Hin) as [v Hv].
      exists v. split; [exact Hv|].
      apply (Hno k0 v); [apply in_or_app; left; exact Hin|exact Hv]. }
    rewrite (find_signing_key_raises kid pre key rest e Hpre' He).
    destruct (subscript_raises _ _ _ He) as [[k' ->]|[m ->]]; split; reflexivity.
Qed.

(** C1, where the code departs from it.  [verify_token] hands back the
    claims of any token that [jwt.decode] accepts, with no look at the
    subject: a correctly signed token whose [sub] is absent or empty is
    returned as a verified user, not answered 401. *)
Theorem verify_token_returns_subjectless (t_jwks t_jwt : Q) (remote : fetch_outcome)
    (auth_header : option string) (w w' : world) (token kid : string)
    (header payload : pydict) (items : list pyval) (signing_key : jwt_key) :
  bearer_token auth_header = Some token ->
  get_jwks t_jwks remote w = (Return (PList items), w') ->
  jws_load token = inr header ->
  dict_lookup "kid" header = Some (PStr kid) ->
  kid <> "" ->
  find_signing_key kid items = Return (Some signing_key) ->
  PyJWT.decode token signing_key ["ES256"] "authenticated" 0 t_jwt = Return payload ->
  truthy (dict_get "sub" payload) = false ->
  fst (verify_token t_jwks t_jwt remote auth_header w)
  = Return (PDict [("user", PDict payload); ("token", PStr token)]).
Proof.
  intros Hb Hg Hl Hk Hne Hf Hd _.
  rewrite (verify_token_with_keys _ _ _ _ _ _ _ _ _ _ Hb Hg Hl Hk Hne), Hf, Hd.
  reflexivity.
Qed.

(** C2, where the code departs from it.  [verify_token] calls
    [jwt.decode] without a leeway: a token it accepted at [t0] is
    answered 401 "Token has expired" from the second its [exp] claim
    names, so also when it expired less than ten seconds ago. *)
Theorem verify_token_has_no_leeway (t_jwks t0 now : Q) (remote : fetch_outcome)
    (auth_header : option string) (w w' : world) (token kid : string)
    (header payload : pydict) (items : list pyval) (signing_key : jwt_key)
    (v : pyval) (exp : Z) :
  bearer_token auth_header = Some token ->
  get_jwks t_jwks remote w = (Return (PList items), w') ->
  jws_load token = inr header ->
  dict_lookup "kid" header = Some (PStr kid) ->
  kid <> "" ->
  find_signing_key kid items = Return (Some signing_key) ->
  PyJWT.decode token signing_key ["ES256"] "authenticated" 0 t0 = Return payload ->
  dict_lookup "exp" payload = Some v ->
  PyJWT.int_claim "exp" v = Return exp ->
  (t0 <= now)%Q ->
  (inject_Z exp <= now)%Q ->
  fst (verify_token t_jwks now remote auth_header w)
  = Raise (HTTPException 401 "Token has expired").
Proof.
  intros Hb Hg Hl Hk Hne Hf Hd Hv He Hle Hexp.
  rewrite (verify_token_with_keys _ _ _ _ _ _ _ _ _ _ Hb Hg Hl Hk Hne), Hf.
  rewrite (decode_later _ _ _ _ _ _ _ _ _ _ Hle Hd Hv He).
  assert (E : Qle_bool (inject_Z exp) (now - 0) = true)
    by (apply Qle_bool_iff; lra).
  rewrite E. reflexivity.
Qed.

End VerifyTokenProperties.

(** ** Concrete runs *)

Lemma unknown_kid_not_always_401_witness :
  let P := constant_platform [("alg", PStr "ES256"); ("kid", PStr "k2")]
             [("sub", PStr "u1"); ("aud", PStr "authenticated")] true None in
  let keys := [PDict [("kid", PStr "k1"); ("kty", PStr "EC")];
               PDict [("kty", PStr "EC")]] in
  @Security.bearer_token (Some "Bearer abc") = Some "abc"
  /\ (forall key k, In key keys -> subscript key "kid" = Return k ->
                    PyJWT.str_is "k2" k = false)
  /\ fst (@Security.verify_token P 1000 1000
            (BodyJson (PDict [("keys", PList keys)])) (Some "Bearer abc") fresh_world)
     = Raise (KeyError "kid")
  /\ response_status (KeyError "kid") = 500.
Proof.
  cbv zeta. split; [reflexivity|].
  assert (Hno : forall key k,
             In key [PDict [("kid", PStr "k1"); ("kty", PStr "EC")];
                     PDict [("kty", PStr "EC")]] ->
             subscript key "kid" = Return k -> PyJWT.str_is "k2" k = false).
  { intros key k [<-|[<-|[]]] Hk; [|discriminate Hk].
    injection Hk as <-. reflexivity. }
  split; [exact Hno|].
  assert (Hne : "k2" <> "") by discriminate.
  assert (Hpre : Forall (fun key => exists k, subscript key "kid" = Return k)
                   [PDict [("kid", PStr "k1"); ("kty", PStr "EC")]]).
  { constructor; [|constructor]. exists (PStr "k1"). reflexivity. }
  destruct (proj2 (proj2
    (@unknown_kid_not_always_401
       (constant_platform [("alg", PStr "ES256"); ("kid", PStr "k2")]
          [("sub", PStr "u1"); ("aud", PStr "authenticated")] true None)
       1000 1000
       (BodyJson (PDict [("keys", PList [PDict [("kid", PStr "k1"); ("kty", PStr "EC")];
                                         PDict [("kty", PStr "EC")]])]))
       (Some "Bearer abc") fresh_world
       {| Security.jwks_cache :=
            {| Security.keys := PList [PDict [("kid", PStr "k1"); ("kty", PStr "EC")];
                                       PDict [("kty", PStr "EC")]];
               Security.last_fetched := 1000 |};
          Security.http_gets := 1 |}
       "abc" "k2" [("alg", PStr "ES256"); ("kid", PStr "k2")]
       [PDict [("kid", PStr "k1"); ("kty", PStr "EC")]; PDict [("kty", PStr "EC")]]
       eq_refl eq_refl eq_refl eq_refl Hno))
    Hne [PDict [("kid", PStr "k1"); ("kty", PStr "EC")]] (PDict [("kty", PStr "EC")]) []
    (KeyError "kid") eq_refl Hpre eq_refl) as [Hr Hs].
  rewrite Hr. split; [reflexivity|exact Hs].
Defined.

Lemma verify_token_returns_subjectless_witness :
  let payload := [("sub", PStr ""); ("email", PStr "a@b.com");
                  ("aud", PStr "authenticated"); ("exp", PInt 2000)] in
  truthy (dict_get "sub" payload) = false
  /\ fst (@Security.verify_token (es256_platform payload) 1000 1000
            (NetworkError "down") (Some "Bearer abc") example_world)
     = Return (PDict [("user", PDict payload); ("token", PStr "abc")]).
Proof.
  cbv zeta. split; [reflexivity|].
  exact (@verify_token_returns_subjectless
           (es256_platform [("sub", PStr ""); ("email", PStr "a@b.com");
                            ("aud", PStr "authenticated"); ("exp", PInt 2000)])
           1000 1000 (NetworkError "down") (Some "Bearer abc")
           example_world example_world "abc" "k1"
           [("alg", PStr "ES256"); ("kid", PStr "k1")]
           [("sub", PStr ""); ("email", PStr "a@b.com");
            ("aud", PStr "authenticated"); ("exp", PInt 2000)]
           [PDict [("kid", PStr "k1"); ("kty", PStr "EC")]]
           (ECKey (PDict [("kid", PStr "k1"); ("kty", PStr "EC")]))
           eq_refl eq_refl eq_refl eq_refl
           (fun H => match H in _ = s return
                             match s with EmptyString => False | _ => True end
                     with eq_refl => I end)
           eq_refl eq_refl eq_refl).
Defined.

Lemma verify_token_has_no_leeway_witness :
  let payload := [("sub", PStr "u1"); ("aud", PStr "authenticated");
                  ("exp", PInt 2000)] in
  fst (@Security.verify_token (es256_platform payload) 1000 1999
         (NetworkError "down") (Some "Bearer abc") example_world)
  = Return (PDict [("user", PDict payload); ("token", PStr "abc")])
  /\ (inject_Z 2000 <= 2005)%Q
  /\ (2005 - inject_Z 2000 < 10)%Q
  /\ fst (@Security.verify_token (es256_platform payload) 1000 2005
            (NetworkError "down") (Some "Bearer abc") example_world)
     = Raise (HTTPException 401 "Token has expired").
Proof.
  cbv zeta. split; [reflexivity|].
  assert (H1 : (1999 <= 2005)%Q) by (unfold Qle; simpl; lia).
  assert (H2 : (inject_Z 2000 <= 2005)%Q) by (unfold Qle; simpl; lia).
  split; [exact H2|]. split; [unfold Qlt; simpl; lia|].
  exact (@verify_token_has_no_leeway
           (es256_platform [("sub", PStr "u1"); ("aud", PStr "authenticated");
                            ("exp", PInt 2000)])
           1000 1999 2005 (NetworkError "down") (Some "Bearer abc")
           example_world example_world "abc" "k1"
           [("alg", PStr "ES256"); ("kid", PStr "k1")]
           [("sub", PStr "u1"); ("aud", PStr "authenticated"); ("exp", PInt 2000)]
           [PDict [("kid", PStr "k1"); ("kty", PStr "EC")]]
           (ECKey (PDict [("kid", PStr "k1"); ("kty", PStr "EC")]))
           (PInt 2000) 2000
           eq_refl eq_refl eq_refl eq_refl
           (fun H => match H in _ = s return
                             match s with EmptyString => False | _ => True end
                     with eq_refl => I end)
           eq_refl eq_refl eq_refl eq_refl H1 H2).
Defined.

Lemma stale_webhook_rejected_witness :
  let P := constant_platform [] [] true (Some (PDict [])) in
  Stripe.get_timestamp_and_signatures example_signature_header "v1"
  = Return (1000,
            ["291d03e2e8ca99ce6b2dd4a86974b888822bbc53e44c7c5718da223c4c86d444"])
  /\ (inject_Z 1000 < 2000 - 300)%Q
  /\ Webhooks.response
       (@Webhooks.stripe_webhook P example_settings 2000 2000 "{}"
          (Some example_signature_header))
     = Raise (HTTPException 400 "Invalid signature").
Proof.
  cbv zeta.
  assert (Hold : (inject_Z 1000 < 2000 - 300)%Q) by (unfold Qlt; simpl; lia).
  assert (Hmatch : Hmac.any_equal
                     (Hmac.sha256_hex "whsec_test" (str_of_int 1000 ++ "." ++ "{}"))
                     ["291d03e2e8ca99ce6b2dd4a86974b888822bbc53e44c7c5718da223c4c86d444"]
                   = Return true) by (vm_compute; reflexivity).
  split; [exact example_signature_header_parsed|]. split; [exact Hold|].
  destruct (@stale_webhook_rejected
              (constant_platform [] [] true (Some (PDict [])))
              example_settings 2000 2000 "{}" example_signature_header 1000
              ["291d03e2e8ca99ce6b2dd4a86974b888822bbc53e44c7c5718da223c4c86d444"]
              example_signature_header_parsed Hold) as [_ Hvalid].
  apply (Hvalid "whsec_test"); [reflexivity|discriminate|reflexivity|exact Hmatch].
Defined.

Lemma missing_signature_is_400_witness :
  let P := constant_platform [] [] true (Some (PDict [])) in
  Webhooks.response (@Webhooks.stripe_webhook P example_settings 1200 1200 "{}" None)
  = Raise (HTTPException 400 "Missing Stripe signature")
  /\ Webhooks.response
       (@Webhooks.stripe_webhook P example_settings 1200 1200 "{}" (Some ""))
     = Raise (HTTPException 400 "Missing Stripe signature").
Proof.
  cbv zeta. split.
  - exact (proj1 (@missing_signature_is_400
                    (constant_platform [] [] true (Some (PDict [])))
                    example_settings 1200 1200 "{}" None (or_introl eq_refl))).
  - exact (proj1 (@missing_signature_is_400
                    (constant_platform [] [] true (Some (PDict [])))
                    example_settings 1200 1200 "{}" (Some "") (or_intror eq_refl))).
Defined.


(** * Further properties *)

(** ** [verify_token]: the header, the key set and the key search *)

Lemma split_on_clean (c : ascii) (t : string) :
  has_char c t = false -> split_on c t = [t].
Proof.
  induction t as [|a t IH]; cbn [has_char split_on]; [reflexivity|].
  intros H. apply orb_false_iff in H. destruct H as [Ha Ht].
  rewrite Ha, (IH Ht). reflexivity.
Qed.

Lemma split_on_first (c : ascii) (t rest : string) :
  has_char c t = false ->
  split_on c (t ++ String c rest) = t :: split_on c rest.
Proof.
  induction t as [|a t IH]; cbn [has_char split_on append].
  - intros _. rewrite Ascii.eqb_refl. reflexivity.
  - intros H. apply orb_false_iff in H. destruct H as [Ha Ht].
    rewrite Ha, (IH Ht). reflexivity.
Qed.

Lemma split_on_pieces (c : ascii) (s piece : string) :
  In piece (split_on c s) -> has_char c piece = false.
Proof.
  revert piece. induction s as [|a s IH]; cbn [split_on]; intros piece H.
  - destruct H as [<-|[]]. reflexivity.
  - destruct (Ascii.eqb a c) eqn:E.
    + destruct H as [<-|H]; [reflexivity|exact (IH _ H)].
    + destruct (split_on c s) as [|h t].
      * destruct H as [<-|[]]. cbn [has_char]. rewrite E. reflexivity.
      * destruct H as [<-|H].
        -- cbn [has_char]. rewrite E. apply IH. left. reflexivity.
        -- apply IH. right. exact H.
Qed.

Lemma split_on_not_nil (c : ascii) (s : string) : split_on c s <> [].
Proof.
  destruct s as [|a s]; cbn [split_on]; [discriminate|].
  destruct (Ascii.eqb a c); [discriminate|].
  destruct (split_on c s); discriminate.
Qed.

Lemma startswith_append (p r : string) : startswith p (p ++ r) = true.
Proof.
  unfold startswith. induction p as [|a p IH]; cbn [append String.prefix].
  - destruct r; reflexivity.
  - destruct (ascii_dec a a) as [_|N]; [exact IH|contradiction].
Qed.

Lemma split_on_Bearer (r : string) :
  split_on " " ("Bearer " ++ r) = "Bearer" :: split_on " " r.
Proof. reflexivity. Qed.

Section MoreVerifyToken.
Context {P : Platform}.
Import Security.

(** X1.  A request without an [Authorization] header, or with one that
    does not start with "Bearer ", is answered 401 "Not authenticated"
    before anything else happens: no request is sent to the JWKS endpoint
    and the cache stays as it was, whatever the endpoint would answer. *)
Theorem verify_token_without_bearer (t_jwks t_jwt : Q) (remote : fetch_outcome)
    (auth_header : option string) (w : world) :
  (forall h, auth_header = Some h -> startswith "Bearer " h = false) ->
  verify_token t_jwks t_jwt remote auth_header w
  = (Raise (HTTPException 401 "Not authenticated"), w).
Proof.
  intros H. unfold verify_token, bearer_token.
  destruct auth_header as [h|]; [|reflexivity].
  rewrite (H h eq_refl), andb_false_r. reflexivity.
Qed.

(** X2.  With a bearer header, an empty or outdated cache and an endpoint
    that fails (network error, error status or a body that is not JSON),
    every token is answered 503, not 401: the token is not looked at, one
    request has been sent and the cache is unchanged. *)
Theorem verify_token_jwks_unavailable (t_jwks t_jwt : Q) (remote : fetch_outcome)
    (h : string) (w : world) (msg : string) :
  startswith "Bearer " h = true ->
  ~ cache_fresh t_jwks (jwks_cache w) ->
  remote = NetworkError msg \/ remote = BadStatus msg \/ remote = BodyNotJson msg ->
  verify_token t_jwks t_jwt remote (Some h) w
  = (Raise (HTTPException 503 ("Could not fetch JWKS: " ++ msg)),
     {| jwks_cache := jwks_cache w; http_gets := S (http_gets w) |}).
Proof.
  intros Hb Hmiss Hr.
  rewrite cache_fresh_guard in Hmiss. apply not_false_is_true in Hmiss.
  unfold verify_token, bearer_token. rewrite Hb.
  destruct h as [|a h]; [discriminate Hb|]. cbn [String.eqb negb andb].
  unfold verify_token_body, get_jwks. rewrite Hmiss.
  destruct Hr as [->|[->| ->]]; reflexivity.
Qed.

(** X3.  The token is what stands between the first and the second
    blank of the header: "Bearer " followed by a token without blanks
    gives that token, and whatever follows a further blank is dropped. *)
Theorem bearer_token_round_trip (t rest : string) :
  has_char " " t = false ->
  bearer_token (Some ("Bearer " ++ t)) = Some t
  /\ bearer_token (Some ("Bearer " ++ t ++ " " ++ rest)) = Some t.
Proof.
  intros H.
  assert (B : forall r, bearer_token (Some ("Bearer " ++ r))
                        = Some (nth 0 (split_on " " r) "")).
  { intros r. unfold bearer_token. rewrite startswith_append.
    rewrite split_on_Bearer. reflexivity. }
  rewrite !B. split.
  - rewrite (split_on_clean " " t H). reflexivity.
  - change (t ++ " " ++ rest) with (t ++ String " " rest).
    rewrite (split_on_first " " t rest H). reflexivity.
Qed.

(** X4.  A token taken from a header never contains a blank. *)
Theorem bearer_token_has_no_blank (auth_header : option string) (token : string) :
  bearer_token auth_header = Some token -> has_char " " token = false.
Proof.
  unfold bearer_token. destruct auth_header as [h|]; [|discriminate].
  destruct (negb (h =? "")%string && startswith "Bearer " h); [|discriminate].
  intros [= <-].
  destruct (split_on " " h) as [|p0 [|p1 ps]] eqn:E; [reflexivity|reflexivity|].
  cbn [nth]. apply (split_on_pieces " " h). rewrite E. right. left. reflexivity.
Qed.

(** X5.  The key search stops at the first key whose [kid] is the
    token's: the keys behind it are not read, and what converting that
    key gives decides the search. *)
Theorem find_signing_key_first_match (kid : string) (pre : list pyval)
    (key : pyval) (rest : list pyval) :
  Forall (fun k => exists v, subscript k "kid" = Return v
                             /\ PyJWT.str_is kid v = false) pre ->
  subscript key "kid" = Return (PStr kid) ->
  find_signing_key kid (pre ++ key :: rest)%list
  = (signing_key <- ec_from_jwk key ;; Return (Some signing_key)).
Proof.
  intros Hpre Hkey.
  induction Hpre as [|k pre (v & Hv & Hne) _ IH]; cbn [app find_signing_key].
  - rewrite Hkey. cbn [bind PyJWT.str_is]. rewrite String.eqb_refl. reflexivity.
  - rewrite Hv. cbn [bind]. rewrite Hne. exact IH.
Qed.

(** X6.  A key without a [kid] member that the search reaches makes
    [verify_token] fail with a [KeyError], which none of its handlers
    takes: the request is answered 500, although the key the token names
    may stand further down in the set. *)
Theorem verify_token_key_without_kid (t_jwks t_jwt : Q) (remote : fetch_outcome)
    (auth_header : option string) (w w' : world) (token kid : string)
    (header : pydict) (pre : list pyval) (d : pydict) (rest : list pyval) :
  bearer_token auth_header = Some token ->
  get_jwks t_jwks remote w = (Return (PList (pre ++ PDict d :: rest)%list), w') ->
  jws_load token = inr header ->
  dict_lookup "kid" header = Some (PStr kid) ->
  kid <> "" ->
  Forall (fun k => exists v, subscript k "kid" = Return v
                             /\ PyJWT.str_is kid v = false) pre ->
  dict_lookup "kid" d = None ->
  verify_token t_jwks t_jwt remote auth_header w = (Raise (KeyError "kid"), w')
  /\ response_status (KeyError "kid") = 500.
Proof.
  intros Hb Hj Hl Hk Hne Hpre Hd. split; [|reflexivity].
  rewrite (verify_token_with_keys _ _ _ _ _ _ _ _ _ _ Hb Hj Hl Hk Hne).
  assert (E : find_signing_key kid (pre ++ PDict d :: rest)%list = Raise (KeyError "kid")).
  { clear -Hpre Hd.
    induction Hpre as [|k pre (v & Hv & Hne) _ IH]; cbn [app find_signing_key].
    - cbn [subscript]. rewrite Hd. reflexivity.
    - rewrite Hv. cbn [bind]. rewrite Hne. exact IH. }
  rewrite E. reflexivity.
Qed.

End MoreVerifyToken.

Section MoreCache.
Import Security.

(** X7.  Whatever state [get_jwks] is called in and whatever the
    endpoint answers: at most one request is sent; a value that is
    returned is the key set the cache holds afterwards; and a call that
    raises leaves the cache as it was. *)
Theorem get_jwks_result_is_cached (now : Q) (remote : fetch_outcome) (w : world) :
  (http_gets w <= http_gets (snd (get_jwks now remote w)) <= S (http_gets w))%nat
  /\ match fst (get_jwks now remote w) with
     | Return ks => keys (jwks_cache (snd (get_jwks now remote w))) = ks
     | Raise _ => jwks_cache (snd (get_jwks now remote w)) = jwks_cache w
     end.
Proof.
  unfold get_jwks.
  destruct (negb (truthy (keys (jwks_cache w)))
            || Qlt_bool CACHE_LIFETIME_SECONDS (now - last_fetched (jwks_cache w))).
  - destruct (fetch_keys remote) as [ks|e]; [cbn; split; [lia|reflexivity]|].
    destruct e; cbn; (split; [lia|reflexivity]).
  - cbn. split; [lia|reflexivity].
Qed.

End MoreCache.

Section OldToken.
Context {P : Platform}.

(** X8.  [verify_old_token] never raises.  It returns the claims exactly
    when [jwt.decode] accepts the token for HS256 and the audience
    "authenticated" without leeway, and [None] in every other case,
    a missing [jwt_secret] attribute included. *)
Theorem verify_old_token_never_raises (jwt_secret : attribute string) (now : Q)
    (token : string) :
  (exists secret payload,
     jwt_secret = Value secret
     /\ PyJWT.decode token (SecretKey secret) ["HS256"] "authenticated" 0 now
        = Return payload
     /\ SecurityOld.verify_old_token jwt_secret now token = Return (PDict payload))
  \/ ((forall secret payload,
         jwt_secret = Value secret ->
         PyJWT.decode token (SecretKey secret) ["HS256"] "authenticated" 0 now
         <> Return payload)
      /\ SecurityOld.verify_old_token jwt_secret now token = Return PNone).
Proof.
  unfold SecurityOld.verify_old_token.
  destruct jwt_secret as [|secret]; cbn [bind try_except].
  - right. split; [intros ? ? [=]|reflexivity].
  - destruct (PyJWT.decode token (SecretKey secret) ["HS256"] "authenticated" 0 now)
      as [payload|e] eqn:E; cbn [bind try_except].
    + left. exists secret, payload. repeat split; assumption || reflexivity.
    + right. split; [|reflexivity].
      intros s p [= <-]. rewrite E. discriminate.
Qed.

End OldToken.

(** ** The dependencies built on [get_current_user] *)

Section DepsChainProperties.
Context {P : Platform}.
Variable settings : Settings.

(** [get_current_user] returns exactly for the tokens that [jwt.decode]
    accepts and whose [sub] claim is truthy. *)
Lemma get_current_user_returns (now : Q) (credentials : string) (u : pyval) :
  Deps.get_current_user settings now credentials = Return u <->
  exists payload,
    PyJWT.decode credentials (SecretKey (supabase_secret_key settings))
      ["HS256"] "authenticated" 10 now = Return payload
    /\ truthy (dict_get "sub" payload) = true
    /\ u = user_info_of payload.
Proof.
  unfold Deps.get_current_user, Deps.decode_user_info, user_info_of.
  cbn [Deps.attr_eq_str Deps.Request_method].
  destruct (PyJWT.decode credentials _ _ _ _ now) as [payload|e]; cbn [bind].
  - cbn [dict_get dict_lookup String.eqb Ascii.eqb Bool.eqb].
    fold (dict_get "sub" payload).
    destruct (truthy (dict_get "sub" payload)) eqn:Hsub; cbn [negb try_except].
    + split.
      * intros [= <-]. exists payload. repeat split. exact Hsub.
      * intros (p & [= <-] & _ & ->). reflexivity.
    + split; [discriminate|]. intros (p & [= <-] & Ht & _). congruence.
  - split; [destruct e; discriminate|]. intros (p & [=] & _).
Qed.

Lemma get_current_user_cases (now : Q) (credentials : string) :
  (exists e, Deps.get_current_user settings now credentials = Raise e)
  \/ (exists payload,
        PyJWT.decode credentials (SecretKey (supabase_secret_key settings))
          ["HS256"] "authenticated" 10 now = Return payload
        /\ truthy (dict_get "sub" payload) = true
        /\ Deps.get_current_user settings now credentials
           = Return (user_info_of payload)).
Proof.
  destruct (Deps.get_current_user settings now credentials) as [u|e] eqn:E.
  - right. apply get_current_user_returns in E. destruct E as (p & Hd & Hs & ->).
    exists p. auto.
  - left. eauto.
Qed.

(** X9.  [require_admin] lets a request through exactly when its token
    is accepted by [get_current_user] and carries the claim [role] with
    the string "admin"; what it returns is the user info of that token. *)
Theorem require_admin_iff_admin_role (now : Q) (credentials : string) (u : pyval) :
  DepsChain.require_admin settings now credentials = Return u <->
  exists payload,
    PyJWT.decode credentials (SecretKey (supabase_secret_key settings))
      ["HS256"] "authenticated" 10 now = Return payload
    /\ truthy (dict_get "sub" payload) = true
    /\ dict_lookup "role" payload = Some (PStr "admin")
    /\ u = PDict [("user_id", dict_get "sub" payload);
                  ("email", dict_get "email" payload);
                  ("role", PStr "admin")].
Proof.
  unfold DepsChain.require_admin.
  destruct (get_current_user_cases now credentials)
    as [[e He]|(payload & Hd & Hs & Hu)].
  - rewrite He. cbn [bind]. split; [discriminate|].
    intros (p & Hp & Ht & _).
    assert (E : Deps.get_current_user settings now credentials
                = Return (user_info_of p))
      by (apply get_current_user_returns; eauto).
    congruence.
  - rewrite Hu, Hd. cbn [bind]. unfold DepsChain.require_admin_body, user_info_of.
    cbn [get_or bind dict_get_default dict_lookup String.eqb Ascii.eqb Bool.eqb].
    unfold dict_get_default.
    destruct (dict_lookup "role" payload) as [role|] eqn:Hr.
    + destruct role as [|b|z|q|s|l|d]; cbn [eq_str negb];
        try (split; [discriminate|intros (p & [= <-] & _ & Hx & _); congruence]).
      destruct (String.eqb_spec s "admin") as [->|Hne]; cbn [negb].
      * split.
        -- intros [= <-]. exists payload. repeat split; assumption.
        -- intros (p & [= <-] & _ & _ & ->). reflexivity.
      * split; [discriminate|]. intros (p & [= <-] & _ & Hx & _). congruence.
    + cbn [eq_str String.eqb Ascii.eqb Bool.eqb negb].
      split; [discriminate|]. intros (p & [= <-] & _ & Hx & _). congruence.
Qed.

(** X10.  A token that [get_current_user] accepts but whose [role]
    claim is absent or is anything but the string "admin" is answered
    403 "Admin access required". *)
Theorem require_admin_forbidden (now : Q) (credentials : string) (payload : pydict) :
  PyJWT.decode credentials (SecretKey (supabase_secret_key settings))
    ["HS256"] "authenticated" 10 now = Return payload ->
  truthy (dict_get "sub" payload) = true ->
  dict_lookup "role" payload <> Some (PStr "admin") ->
  DepsChain.require_admin settings now credentials
  = Raise (HTTPException 403 "Admin access required")
  /\ response_status (HTTPException 403 "Admin access required") = 403.
Proof.
  intros Hd Hs Hr. split; [|reflexivity].
  assert (E : Deps.get_current_user settings now credentials
              = Return (user_info_of payload))
    by (apply get_current_user_returns; eauto).
  unfold DepsChain.require_admin. rewrite E. cbn [bind].
  unfold DepsChain.require_admin_body, user_info_of.
  cbn [get_or bind dict_get_default dict_lookup String.eqb Ascii.eqb Bool.eqb].
  unfold dict_get_default.
  destruct (dict_lookup "role" payload) as [role|]; [|reflexivity].
  destruct role as [|b|z|q|s|l|d]; try reflexivity.
  cbn [eq_str]. destruct (String.eqb_spec s "admin") as [->|Hne]; [|reflexivity].
  contradiction Hr. reflexivity.
Qed.

(** X11.  [get_current_user_id] and [get_current_user_email] fail only
    where [get_current_user] fails, and with its exception: the
    subscripts never raise.  Otherwise the first returns the [sub] claim
    of the token, which is truthy, and the second its [email] claim,
    [None] when the token has none. *)
Theorem get_current_user_id_is_subject (now : Q) (credentials : string) :
  (exists e,
     Deps.get_current_user settings now credentials = Raise e
     /\ DepsChain.get_current_user_id settings now credentials = Raise e
     /\ DepsChain.get_current_user_email settings now credentials = Raise e)
  \/ (exists payload,
        PyJWT.decode credentials (SecretKey (supabase_secret_key settings))
          ["HS256"] "authenticated" 10 now = Return payload
        /\ truthy (dict_get "sub" payload) = true
        /\ DepsChain.get_current_user_id settings now credentials
           = Return (dict_get "sub" payload)
        /\ DepsChain.get_current_user_email settings now credentials
           = Return (dict_get "email" payload)).
Proof.
  unfold DepsChain.get_current_user_id, DepsChain.get_current_user_email.
  destruct (get_current_user_cases now credentials)
    as [[e He]|(payload & Hd & Hs & Hu)].
  - left. exists e. rewrite He. auto.
  - right. exists payload. rewrite Hu. auto.
Qed.

(** X12.  [get_user_subscription] never reports a plan.  Where
    [get_current_user] fails it fails alike; otherwise it returns [None]
    (the [try] block has no [return]) when the profile query gives a
    falsy value or a mapping, and the all-false "none" entry when the
    query raises or gives anything else. *)
Theorem get_user_subscription_reports_no_plan (profile : result pyval) (now : Q)
    (credentials : string) :
  (exists e,
     Deps.get_current_user settings now credentials = Raise e
     /\ DepsChain.get_user_subscription settings profile now credentials = Raise e)
  \/ ((exists u, Deps.get_current_user settings now credentials = Return u)
      /\ DepsChain.get_user_subscription settings profile now credentials
         = match profile with
           | Return (PDict _) => Return PNone
           | Return data => if truthy data then Return DepsChain.no_subscription
                            else Return PNone
           | Raise _ => Return DepsChain.no_subscription
           end).
Proof.
  unfold DepsChain.get_user_subscription.
  destruct (get_current_user_cases now credentials)
    as [[e He]|(payload & Hd & Hs & Hu)].
  - left. exists e. rewrite He. auto.
  - right. rewrite Hu. split; [eauto|]. cbn [bind].
    unfold DepsChain.get_user_subscription_body, user_info_of.
    destruct profile as [data|e]; [|reflexivity].
    destruct data as [|b|z|q|s|l|d]; cbn [subscript dict_lookup String.eqb Ascii.eqb Bool.eqb bind truthy];
      try reflexivity.
    + destruct b; reflexivity.
    + destruct (negb (z =? 0)); reflexivity.
    + destruct (negb (Qeq_bool q 0)); reflexivity.
    + destruct (negb (s =? "")%string); reflexivity.
    + destruct l; reflexivity.
    + destruct d; reflexivity.
Qed.

End DepsChainProperties.

(** ** Start-up: the key set and the settings *)

Section StartUp.
Import Security Lifespan.

(** X13.  At start-up (the cache is still the initial one) exactly one
    request is sent.  The application starts whenever the answer has a
    ["keys"] member, whatever its value (an empty list too), and the
    value is cached; in every other case, a body without ["keys"]
    included, start-up stops with the [RuntimeError] of line 35 and the
    cache is still the initial one. *)
Theorem prefetch_jwks_at_startup (now : Q) (remote : fetch_outcome) (n : nat) :
  http_gets (snd (prefetch_jwks now remote
                    {| jwks_cache := initial_cache; http_gets := n |})) = S n
  /\ match fetch_keys remote with
     | Return ks =>
         fst (prefetch_jwks now remote
                {| jwks_cache := initial_cache; http_gets := n |}) = Return tt
         /\ jwks_cache (snd (prefetch_jwks now remote
                               {| jwks_cache := initial_cache; http_gets := n |}))
            = {| keys := ks; last_fetched := now |}
     | Raise _ =>
         fst (prefetch_jwks now remote
                {| jwks_cache := initial_cache; http_gets := n |})
         = Raise (RuntimeError "Failed to fetch JWKS on startup.")
         /\ jwks_cache (snd (prefetch_jwks now remote
                               {| jwks_cache := initial_cache; http_gets := n |}))
            = initial_cache
     end.
Proof.
  unfold prefetch_jwks, get_jwks. cbn [jwks_cache keys initial_cache truthy negb orb].
  destruct (fetch_keys remote) as [ks|e]; [repeat split|].
  destruct e; repeat split.
Qed.

Ltac eval_contains :=
  repeat match goal with
         | |- context [contains ?p ?l] =>
             let v := eval vm_compute in (contains p l) in
             change (contains p l) with v
         end.

Lemma security_checks_critical (url secret pub : string) :
  critical_issues (security_checks url secret pub) = []
  <-> url <> "" /\ (32 <= String.length secret)%nat /\ pub <> "".
Proof.
  unfold critical_issues, security_checks.
  destruct (String.eqb_spec url "") as [Hu|Hu];
    destruct (negb (startswith "https://" url));
    destruct (String.eqb_spec secret "") as [Hs|Hs];
    destruct (Nat.ltb_spec (String.length secret) 32) as [Hl|Hl];
    destruct (String.eqb_spec pub "") as [Hp|Hp];
    cbn [filter]; eval_contains; cbn iota;
    (split; [intros H; try discriminate H; repeat split; assumption
            |intros (H1 & H2 & H3); try reflexivity;
             try contradiction; try lia]);
    subst secret; cbn in *; lia.
Qed.


(** X15.  Settings that passed the three validators of [config.py] pass
    the start-up check without a critical line and without a warning. *)
Theorem validated_settings_pass_check (url secret pub : string) :
  Config.validate_supabase_url url = Return url ->
  Config.validate_supabase_secret_key secret = Return secret ->
  Config.validate_supabase_pub_key pub = Return pub ->
  check_security url secret pub = Return tt
  /\ warnings (security_checks url secret pub) = [].
Proof.
  unfold Config.validate_supabase_url, Config.validate_supabase_secret_key,
    Config.validate_supabase_pub_key.
  intros Hu Hs Hp.
  destruct (String.eqb_spec url "") as [|Hu0]; [discriminate Hu|].
  destruct (startswith "https://" url) eqn:Hh; [|discriminate Hu].
  destruct (String.eqb_spec secret "") as [|Hs0]; [discriminate Hs|].
  destruct (Nat.ltb_spec (String.length secret) 32) as [|Hl]; [discriminate Hs|].
  destruct (String.eqb_spec pub "") as [|Hp0]; [discriminate Hp|].
  split.
  - unfold check_security.
    assert (E : critical_issues (security_checks url secret pub) = [])
      by (apply security_checks_critical; auto).
    rewrite E. reflexivity.
  - unfold warnings, security_checks. rewrite Hh. cbn [negb].
    destruct (String.eqb_spec url "") as [|_]; [contradiction|].
    destruct (String.eqb_spec secret "") as [|_]; [contradiction|].
    destruct (String.eqb_spec pub "") as [|_]; [contradiction|].
    destruct (Nat.ltb_spec (String.length secret) 32) as [|_]; [lia|].
    cbn [filter]. eval_contains. reflexivity.
Qed.

End StartUp.

(** ** The texts sent to clients *)

Section Sanitizing.
Import ErrorSanitizer.

Lemma first_pattern_In (l : string) (mappings : list (string * string)) (m : string) :
  first_pattern l mappings = Some m -> In m (map snd mappings).
Proof.
  induction mappings as [|[p t] rest IH]; cbn [first_pattern map snd]; [discriminate|].
  destruct (contains p l); [intros [= <-]; left; reflexivity|].
  intros H. right. exact (IH H).
Qed.

Lemma first_pattern_Some (l : string) (mappings : list (string * string)) (p : string) :
  In p (map fst mappings) -> contains p l = true ->
  exists m, first_pattern l mappings = Some m.
Proof.
  induction mappings as [|[p' t] rest IH]; cbn [first_pattern map fst]; [intros []|].
  intros [->|H] Hc.
  - rewrite Hc. eauto.
  - destruct (contains p' l); eauto.
Qed.

Lemma status_message_In (code : Z) (table : list (Z * string)) (m : string) :
  status_message code table = Some m -> In m (map snd table).
Proof.
  induction table as [|[c t] rest IH]; cbn [status_message map snd]; [discriminate|].
  destruct (c =? code); [intros [= <-]; left; reflexivity|].
  intros H. right. exact (IH H).
Qed.

Lemma sanitize_canned (msg : string) (code : Z) :
  In (sanitize msg code) canned_messages.
Proof.
  unfold sanitize, canned_messages.
  destruct (first_pattern (lower msg) ERROR_MAPPINGS) as [m|] eqn:E.
  - apply in_or_app. left. exact (first_pattern_In _ _ _ E).
  - apply in_or_app. right. apply in_or_app.
    destruct (status_message code STATUS_MESSAGES) as [m|] eqn:S.
    + left. exact (status_message_In _ _ _ S).
    + right. destruct (500 <=? code); [left; reflexivity|].
      destruct (400 <=? code); [right; left; reflexivity|].
      right. right. left. reflexivity.
Qed.

(** X16.  The response to a [DescriboException] carries the status code
    of the exception, and as its error text one of the fixed texts of
    [ErrorSanitizer], whatever the message of the exception says. *)
Theorem describo_handler_sends_fixed_text (exc : DescriboException) (error_id : string) :
  response_code (Describo_exception_handler exc error_id) = status_code exc
  /\ dict_lookup "error" (content (Describo_exception_handler exc error_id))
     = Some (PStr (sanitize (message exc) (status_code exc)))
  /\ In (sanitize (message exc) (status_code exc)) canned_messages.
Proof.
  repeat split. apply sanitize_canned.
Qed.

(** X17.  When one of the patterns of [ERROR_MAPPINGS] occurs in the
    message, in whatever letter case, the status code has no say: the
    text is the same for every status code, and it is one of the texts
    of [ERROR_MAPPINGS]. *)
Theorem sanitize_pattern_overrides_status (msg pattern : string) (code code' : Z) :
  In pattern (map fst ERROR_MAPPINGS) ->
  contains pattern (lower msg) = true ->
  sanitize msg code = sanitize msg code'
  /\ In (sanitize msg code) (map snd ERROR_MAPPINGS).
Proof.
  intros Hp Hc.
  destruct (first_pattern_Some _ _ _ Hp Hc) as [m Hm].
  unfold sanitize. rewrite Hm. split; [reflexivity|].
  exact (first_pattern_In _ _ _ Hm).
Qed.

(** X18.  The patterns are tried in the order of the dict: a message
    that mentions a token, a JWT or a signature is never answered
    "Session expired - please login again", although it may contain
    "expired". *)
Theorem sanitize_token_before_expired (msg : string) (code : Z) :
  contains "token" (lower msg) || contains "jwt" (lower msg)
  || contains "signature" (lower msg) = true ->
  sanitize msg code <> "Session expired - please login again".
Proof.
  intros H. unfold sanitize, ERROR_MAPPINGS. cbn [first_pattern].
  repeat match goal with
         | |- (match (if contains ?p ?l then _ else _) with _ => _ end) <> _ =>
             destruct (contains p l) eqn:?; [discriminate|]
         end.
  discriminate H.
Qed.

End Sanitizing.

Section SanitizedAuthentication.
Context {P : Platform}.
Variable settings : Settings.
Import ErrorSanitizer.

(** X19.  A token that decodes but has no truthy [sub] claim makes
    [get_current_user] raise an [AuthenticationError], which the handler
    registered for [DescriboException] answers with status 401 and the
    error text "Authentication failed". *)
Theorem missing_subject_response (now : Q) (token : string) (payload : pydict)
    (error_id : string) :
  PyJWT.decode token (SecretKey (supabase_secret_key settings))
    ["HS256"] "authenticated" 10 now = Return payload ->
  truthy (dict_get "sub" payload) = false ->
  exists e exc,
    Deps.get_current_user settings now token = Raise e
    /\ as_describo e = Some exc
    /\ Describo_exception_handler exc error_id
       = {| response_code := 401;
            content := [("success", PBool false);
                        ("error", PStr "Authentication failed");
                        ("status_code", PInt 401);
                        ("error_id", PStr error_id)] |}.
Proof.
  intros Hd Hs.
  destruct (get_current_user_requires_subject settings now token payload Hd Hs) as [E _].
  eexists. eexists. split; [exact E|]. split; [reflexivity|].
  unfold Describo_exception_handler. cbn [message status_code].
  assert (S : sanitize "Authentication failed: Invalid token: missing user ID" 401
              = "Authentication failed") by (vm_compute; reflexivity).
  rewrite S. reflexivity.
Qed.

End SanitizedAuthentication.

(** ** [ALLOWED_HOSTS] *)

















(** ** The checkout session *)

Section CheckoutSession.
Variable stripe_price_id_maker stripe_price_id_studio : option string.
Variable profile : result pyval.
Variable create_or_get_customer :
  pyval -> pyval -> string -> pyval -> pyval -> result pyval.

(** For each of the three plans the endpoint lets through, the service
    raises: [PRICE_IDS] has the keys "Maker" and "Studio" only. *)
Lemma service_refuses_valid_plans (session_create : pydict -> result pyval)
    (user_id : pyval) (plan success_url cancel_url user_jwt : string) :
  existsb (String.eqb plan) Billing.valid_plans = true ->
  exists e,
    StripeService.create_checkout_session stripe_price_id_maker
      stripe_price_id_studio profile create_or_get_customer session_create
      user_id plan success_url cancel_url user_jwt = Raise e
    /\ forall session_create',
         StripeService.create_checkout_session stripe_price_id_maker
           stripe_price_id_studio profile create_or_get_customer session_create'
           user_id plan success_url cancel_url user_jwt = Raise e.
Proof.
  intros Hplan.
  assert (Hprice : dict_get plan (StripeService.PRICE_IDS stripe_price_id_maker
                                    stripe_price_id_studio) = PNone).
  { unfold Billing.valid_plans in Hplan. cbn [existsb] in Hplan.
    rewrite !orb_true_iff in Hplan.
    destruct Hplan as [H|[H|[H|H]]]; [| | |discriminate H];
      apply String.eqb_eq in H; subst plan; reflexivity. }
  unfold StripeService.create_checkout_session. rewrite Hprice. cbn [truthy negb].
  destruct profile as [data|e]; cbn [bind]; [|eauto].
  destruct (negb (truthy data)); [eauto|].
  destruct (subscript data "email") as [email|e]; cbn [bind]; [|eauto].
  destruct (get_or data "first_name" (PStr "")) as [fn|e]; cbn [bind]; [|eauto].
  destruct (get_or data "last_name" (PStr "")) as [ln|e]; cbn [bind]; [|eauto].
  destruct (create_or_get_customer user_id email user_jwt fn ln) as [c|e];
    cbn [bind]; eauto.
Qed.

(** X22.  [create_checkout_session] of [billing.py] answers every call
    with an [HTTPException] of status 500, also for a plan it does not
    know (its own 400 is caught by its [except Exception] clause): it
    never returns a checkout URL, and what creating a Stripe session
    would give has no influence on the answer. *)
Theorem create_checkout_session_always_500
    (session_create : pydict -> result pyval) (frontend_domain plan : string)
    (request_success_url request_cancel_url : option string)
    (current_user : pyval) (user_jwt : string) :
  (exists detail,
     Billing.create_checkout_session stripe_price_id_maker stripe_price_id_studio
       profile create_or_get_customer session_create frontend_domain plan
       request_success_url request_cancel_url current_user user_jwt
     = Raise (HTTPException 500 detail))
  /\ forall session_create',
       Billing.create_checkout_session stripe_price_id_maker stripe_price_id_studio
         profile create_or_get_customer session_create' frontend_domain plan
         request_success_url request_cancel_url current_user user_jwt
       = Billing.create_checkout_session stripe_price_id_maker stripe_price_id_studio
           profile create_or_get_customer session_create frontend_domain plan
           request_success_url request_cancel_url current_user user_jwt.
Proof.
  unfold Billing.create_checkout_session.
  destruct (subscript current_user "user_id") as [user_id|e]; cbn [bind try_except];
    [|split; [eauto|reflexivity]].
  destruct (existsb (String.eqb plan) Billing.valid_plans) eqn:Hplan; cbn [negb];
    [|split; [cbn [try_except]; eauto|reflexivity]].
  match goal with
  | |- context [StripeService.create_checkout_session _ _ _ _ _ ?u ?p ?s ?c ?j] =>
      destruct (service_refuses_valid_plans session_create u p s c j Hplan)
        as (e & He & Hall)
  end.
  rewrite He. cbn [bind try_except]. split; [eauto|].
  intros sc. rewrite (Hall sc). reflexivity.
Qed.

(** X23.  Of a call that reaches the plan check with a plan outside the
    three valid ones, the detail of the 500 is the text of the 400 that
    was raised inside the [try]. *)
Theorem invalid_plan_is_reported_as_500
    (session_create : pydict -> result pyval) (frontend_domain plan : string)
    (request_success_url request_cancel_url : option string)
    (current_user : pydict) (user_jwt : string) (user_id : pyval) :
  dict_lookup "user_id" current_user = Some user_id ->
  plan <> "pro_hac_vice" -> plan <> "covenant" -> plan <> "force_majeure" ->
  Billing.create_checkout_session stripe_price_id_maker stripe_price_id_studio
    profile create_or_get_customer session_create frontend_domain plan
    request_success_url request_cancel_url (PDict current_user) user_jwt
  = Raise (HTTPException 500
             "400: Invalid plan. Must be one of: pro_hac_vice, covenant, force_majeure").
Proof.
  intros Hu H1 H2 H3. unfold Billing.create_checkout_session.
  cbn [subscript]. rewrite Hu. cbn [bind].
  unfold Billing.valid_plans. cbn [existsb].
  apply String.eqb_neq in H1, H2, H3. rewrite H1, H2, H3. reflexivity.
Qed.

End CheckoutSession.

(** ** The profile endpoints *)

Lemma dict_lookup_set_same (k : string) (v : pyval) (d : pydict) :
  dict_lookup k (dict_set k v d) = Some v.
Proof.
  induction d as [|[k' v'] d IH]; cbn [dict_set dict_lookup].
  - rewrite String.eqb_refl. reflexivity.
  - destruct (String.eqb_spec k' k) as [->|N]; cbn [dict_lookup].
    + rewrite String.eqb_refl. reflexivity.
    + apply String.eqb_neq in N. rewrite N. exact IH.
Qed.

Lemma dict_lookup_set_other (k k0 : string) (v : pyval) (d : pydict) :
  k0 <> k -> dict_lookup k0 (dict_set k v d) = dict_lookup k0 d.
Proof.
  intros N. induction d as [|[k' v'] d IH]; cbn [dict_set dict_lookup].
  - destruct (String.eqb_spec k k0) as [E|_]; [congruence|reflexivity].
  - destruct (String.eqb_spec k' k) as [->|N']; cbn [dict_lookup].
    + destruct (String.eqb_spec k k0) as [E|_]; [congruence|reflexivity].
    + destruct (String.eqb_spec k' k0); [reflexivity|exact IH].
Qed.

(** X24.  [get_user_profile] never raises for the user info of a token,
    whatever the profile query comes to: its answer always has
    [success] true.  The data never has the key ["subscription_status"]
    (a row's status goes out under ["subscription_satus"]), and its
    [user_id] is the token's unless it is the [id] of the first row the
    query returned. *)
Theorem get_user_profile_always_succeeds (query : result pyval) (current_user : pydict) :
  exists data,
    Users.get_user_profile query (PDict current_user)
    = Return (PDict [("success", PBool true); ("data", PDict data)])
    /\ dict_lookup "subscription_status" data = None
    /\ (dict_lookup "user_id" data = Some (dict_get "user_id" current_user)
        \/ exists rows row id,
             query = Return rows
             /\ Users.first_item rows = Return row
             /\ subscript row "id" = Return id
             /\ dict_lookup "user_id" data = Some id).
Proof.
  unfold Users.get_user_profile. cbn [get_or bind].
  set (fallback := Users.answer (Users.fallback_data
                                   (dict_get_default "user_id" PNone current_user)
                                   (dict_get_default "email" PNone current_user))).
  assert (Fall : exists data,
             Return fallback = Return (PDict [("success", PBool true); ("data", PDict data)])
             /\ dict_lookup "subscription_status" data = None
             /\ (dict_lookup "user_id" data = Some (dict_get "user_id" current_user)
                 \/ exists rows row id,
                      query = Return rows
                      /\ Users.first_item rows = Return row
                      /\ subscript row "id" = Return id
                      /\ dict_lookup "user_id" data = Some id)).
  { eexists. split; [reflexivity|]. split; [reflexivity|]. left. reflexivity. }
  destruct query as [rows|e]; cbn [bind try_except]; [|exact Fall].
  destruct (truthy rows) eqn:Ht; cbn [bind try_except]; [|exact Fall].
  destruct (Users.py_len rows) as [n|e] eqn:Hn; cbn [bind try_except]; [|exact Fall].
  destruct (0 <? n); cbn [bind try_except]; [|exact Fall].
  destruct (Users.first_item rows) as [row|e] eqn:Hrow; cbn [bind try_except];
    [|exact Fall].
  destruct row as [|b|z|q|s|l|r]; try exact Fall.
  unfold Users.profile_data_of. cbn [subscript get_or].
  destruct (dict_lookup "id" r) as [id|] eqn:Hid; cbn [bind try_except]; [|exact Fall].
  eexists. split; [reflexivity|]. split; [reflexivity|].
  right. exists rows, (PDict r), id. cbn [subscript]. rewrite Hid. auto.
Qed.

(** X25.  The row that [create_profile] inserts always carries the
    [user_id] of the token, whatever the request body says; a truthy
    [email] of the body is kept, otherwise the token's is used; every
    other field of the body goes through as it is. *)
Theorem profile_row_is_for_the_caller (user_id : pyval) (profile_data current_user : pydict) :
  exists row,
    Users.profile_row user_id profile_data (PDict current_user) = Return row
    /\ dict_lookup "user_id" row = Some user_id
    /\ dict_lookup "email" row
       = (if truthy (dict_get "email" profile_data)
          then dict_lookup "email" profile_data
          else Some (dict_get "email" current_user))
    /\ forall k, k <> "user_id" -> k <> "email" ->
                 dict_lookup k row = dict_lookup k profile_data.
Proof.
  unfold Users.profile_row.
  assert (E : dict_get "email" (dict_set "user_id" user_id profile_data)
              = dict_get "email" profile_data)
    by (unfold dict_get; rewrite dict_lookup_set_other; [reflexivity|discriminate]).
  rewrite E.
  destruct (truthy (dict_get "email" profile_data)); cbn [negb get_or bind].
  - eexists. split; [reflexivity|]. split; [apply dict_lookup_set_same|].
    split; [apply dict_lookup_set_other; discriminate|].
    intros k Hk _. apply dict_lookup_set_other. exact Hk.
  - eexists. split; [reflexivity|]. split.
    + rewrite dict_lookup_set_other by discriminate. apply dict_lookup_set_same.
    + split; [apply dict_lookup_set_same|].
      intros k Hk He. rewrite !dict_lookup_set_other by assumption. reflexivity.
Qed.

(** X26.  [create_profile] answers 201 or raises an [HTTPException] of
    status 500 whose detail starts with "Failed to create profile" and
    nothing else; the 500 it raises itself when the insertion returns no
    row is caught by its own [except] clause and sent with the detail
    wrapped once more. *)
Theorem create_profile_outcomes (get_client : result unit)
    (insert : pydict -> result pyval) (profile_data : pydict) (current_user : pyval) :
  ((exists profile,
      Users.create_profile get_client insert profile_data current_user
      = Return {| ErrorSanitizer.response_code := 201;
                  ErrorSanitizer.content :=
                    [("success", PBool true);
                     ("message", PStr "Profile created successfully");
                     ("profile", profile)] |})
   \/ (exists detail,
         Users.create_profile get_client insert profile_data current_user
         = Raise (HTTPException 500 ("Failed to create profile: " ++ detail))))
  /\ forall user_id row data,
       subscript current_user "user_id" = Return user_id ->
       get_client = Return tt ->
       Users.profile_row user_id profile_data current_user = Return row ->
       insert row = Return data ->
       truthy data = false ->
       Users.create_profile get_client insert profile_data current_user
       = Raise (HTTPException 500
                  "Failed to create profile: 500: Failed to create profile").
Proof.
  unfold Users.create_profile. split.
  - destruct (subscript current_user "user_id") as [user_id|e];
      cbn [bind try_except]; [|right; eauto].
    destruct get_client as [[]|e]; cbn [bind try_except]; [|right; eauto].
    destruct (Users.profile_row user_id profile_data current_user) as [row|e];
      cbn [bind try_except]; [|right; eauto].
    destruct (insert row) as [data|e]; cbn [bind try_except]; [|right; eauto].
    destruct (truthy data); cbn [bind try_except]; [|right; eauto].
    destruct (Users.first_item data) as [p|e]; cbn [bind try_except];
      [left; eauto|right; eauto].
  - intros user_id row data Hu Hc Hr Hi Ht.
    rewrite Hu, Hc. cbn [bind]. rewrite Hr. cbn [bind]. rewrite Hi. cbn [bind].
    rewrite Ht. reflexivity.
Qed.

(** ** The dispatch of the webhook endpoint *)

Section Dispatch.
Context {P : Platform}.
Import Webhooks.

Lemma trace_try {A : Type} (c : io A) (h : exn -> option (io A)) :
  trace (io_try c h)
  = (trace c ++ match response c with
                | Return _ => []
                | Raise e => match h e with Some c' => trace c' | None => [] end
                end)%list.
Proof.
  destruct c as [t [a|e]]; cbn; [symmetry; apply app_nil_r|].
  destruct (h e) as [[t' r]|]; cbn; [reflexivity|symmetry; apply app_nil_r].
Qed.

Lemma dispatched_bind {A B : Type} (c : io A) (k : A -> io B) :
  dispatched (trace (io_bind c k)) = true ->
  dispatched (trace c) = true
  \/ exists a, response c = Return a /\ dispatched (trace (k a)) = true.
Proof.
  rewrite trace_bind. destruct (response c) as [a|e]; [|auto].
  unfold dispatched. rewrite existsb_app, orb_true_iff. intros [H|H]; eauto.
Qed.

Lemma dispatched_try {A : Type} (c : io A) (h : exn -> option (io A)) :
  dispatched (trace (io_try c h)) = true ->
  dispatched (trace c) = true
  \/ exists e c', response c = Raise e /\ h e = Some c'
                  /\ dispatched (trace c') = true.
Proof.
  rewrite trace_try. unfold dispatched. rewrite existsb_app, orb_true_iff.
  intros [H|H]; [auto|].
  destruct (response c) as [a|e]; [discriminate H|].
  destruct (h e) as [c'|] eqn:E; [|discriminate H]. right. eauto.
Qed.

Lemma quiet_bind {A B : Type} (c : io A) (k : A -> io B) :
  dispatched (trace c) = false ->
  (forall a, dispatched (trace (k a)) = false) ->
  dispatched (trace (io_bind c k)) = false.
Proof.
  intros Hc Hk. rewrite trace_bind. destruct (response c) as [a|e]; [|exact Hc].
  unfold dispatched in *. rewrite existsb_app, Hc, (Hk a). reflexivity.
Qed.

Ltac quiet := repeat (apply quiet_bind; [try reflexivity|intros]); try reflexivity.

Lemma check_age_quiet (timestamp : option string) (t_debug : Q) :
  dispatched (trace (check_age timestamp t_debug)) = false.
Proof.
  unfold check_age. destruct timestamp as [[|a ts]|]; try reflexivity.
  destruct (int_of_str (String a ts)); [|reflexivity].
  quiet. destruct (300 <? _); reflexivity.
Qed.

Lemma manual_check_quiet (secret : string) (t_debug : Q)
    (payload stripe_signature : string) :
  dispatched (trace (manual_check secret t_debug payload stripe_signature)) = false.
Proof.
  unfold manual_check.
  destruct (parse_parts (split_on "," stripe_signature)) as [timestamp signatures].
  quiet. apply check_age_quiet.
Qed.

Lemma official_verification_quiet (secret : string) (t_verify : Q)
    (payload sig_header : string) :
  dispatched (trace (official_verification secret t_verify payload sig_header)) = false.
Proof.
  unfold official_verification. rewrite trace_try, !trace_bind.
  cbn [emit lift log response trace fst snd].
  rewrite ?response_bind. cbn [emit lift log response trace fst snd].
  destruct (Stripe.construct_event payload sig_header secret t_verify) as [ev|e];
    [reflexivity|].
  destruct e; reflexivity.
Qed.

(** X27.  No session is retrieved and no handler of [stripe_service] is
    called unless the request carries a signature header, a webhook
    secret is configured and [construct_event] has accepted the body
    with them.  The inline check never leads to a dispatch. *)
Theorem no_dispatch_without_verification (settings : Settings) (t_debug t_verify : Q)
    (payload : string) (stripe_signature : option string) :
  dispatched (trace (stripe_webhook settings t_debug t_verify payload stripe_signature))
  = true ->
  exists sig_header secret event,
    stripe_signature = Some sig_header
    /\ STRIPE_WEBHOOK_SECRET settings = Value (Some secret)
    /\ Stripe.construct_event payload sig_header secret t_verify = Return event.
Proof.
  unfold stripe_webhook, stripe_webhook_with.
  destruct stripe_signature as [[|a sig]|]; [discriminate| |discriminate].
  destruct (STRIPE_WEBHOOK_SECRET settings) as [|[[|b secret]|]] eqn:Hs;
    [discriminate|discriminate| |discriminate].
  intros H. exists (String a sig), (String b secret).
  apply dispatched_try in H. destruct H as [H|(e & c' & _ & He & H)].
  - repeat (apply dispatched_bind in H; destruct H as [H|(? & _ & H)];
            [discriminate H|]).
    apply dispatched_bind in H. destruct H as [H|(? & _ & H)].
    + apply dispatched_try in H. destruct H as [H|(e & c' & _ & He & H)].
      * apply dispatched_bind in H. destruct H as [H|(? & _ & H)];
          [|discriminate H].
        rewrite manual_check_quiet in H. discriminate H.
      * injection He as <-. discriminate H.
    + apply dispatched_bind in H. destruct H as [H|(event & Hev & _)].
      * rewrite official_verification_quiet in H. discriminate H.
      * rewrite response_official_verification in Hev.
        destruct (Stripe.construct_event payload (String a sig) (String b secret)
                    t_verify) as [ev|e]; [eauto|].
        destruct e; discriminate Hev.
  - destruct e; injection He as <-; discriminate H.
Qed.

(** X28.  An event whose type is none of the four handled ones is
    acknowledged with success without any call: no session retrieval and
    no handler. *)
Theorem unhandled_event_type_is_acknowledged (event : pydict)
    (event_type data event_data : pyval) :
  dict_lookup "type" event = Some event_type ->
  dict_lookup "data" event = Some data ->
  subscript data "object" = Return event_data ->
  PyJWT.str_is "checkout.session.completed" event_type = false ->
  PyJWT.str_is "customer.subscription.updated" event_type = false ->
  PyJWT.str_is "customer.subscription.deleted" event_type = false ->
  PyJWT.str_is "invoice.payment_failed" event_type = false ->
  calls (trace (handle_event event)) = []
  /\ response (handle_event event)
     = Return {| success := true; processed_event_type := event_type |}.
Proof.
  intros Ht Hd Ho H1 H2 H3 H4. unfold handle_event. cbn [subscript].
  rewrite Ht, Hd. cbn [lift io_bind app]. rewrite Ho, H1, H2, H3, H4.
  split; reflexivity.
Qed.

(** X29.  A deleted subscription is handed to the handler of updated
    subscriptions, with the object of the event and nothing else; the
    webhook succeeds exactly when that handler returns, and the endpoint
    turns its failure into 500. *)
Theorem subscription_deleted_runs_update_handler (event : pydict) (data : pyval)
    (subscription : pydict) :
  dict_lookup "type" event = Some (PStr "customer.subscription.deleted") ->
  dict_lookup "data" event = Some data ->
  subscript data "object" = Return (PDict subscription) ->
  calls (trace (handle_event event))
  = [Handler "handle_subscription_updated" (PDict subscription)]
  /\ response (handle_event event)
     = (if handle_subscription_updated (PDict subscription)
        then Return {| success := true;
                       processed_event_type := PStr "customer.subscription.deleted" |}
        else Raise (RuntimeError "handle_subscription_updated"))
  /\ response (io_try (handle_event event) on_error)
     = (if handle_subscription_updated (PDict subscription)
        then Return {| success := true;
                       processed_event_type := PStr "customer.subscription.deleted" |}
        else Raise (HTTPException 500 "Webhook processing failed")).
Proof.
  intros Ht Hd Ho. rewrite response_on_error. unfold handle_event. cbn [subscript].
  rewrite Ht, Hd. cbn [lift io_bind app]. rewrite Ho.
  cbn [PyJWT.str_is String.eqb Ascii.eqb Bool.eqb get_method lift log emit io_bind app
       call_handler].
  destruct (handle_subscription_updated (PDict subscription)); repeat split; reflexivity.
Qed.

(** X30.  A completed checkout whose session is retrieved but on which
    [handle_checkout_completed] fails is handled a second time, on the
    object of the event: the [except] clause around the retrieval also
    covers the handler.  The outcome is that of the second run. *)
Theorem checkout_handler_runs_twice (event : pydict) (data : pyval)
    (session : pydict) (session_id expanded : pyval) :
  dict_lookup "type" event = Some (PStr "checkout.session.completed") ->
  dict_lookup "data" event = Some data ->
  subscript data "object" = Return (PDict session) ->
  dict_lookup "id" session = Some session_id ->
  truthy session_id = true ->
  session_retrieve session_id = Some expanded ->
  handle_checkout_completed expanded = false ->
  calls (trace (handle_event event))
  = [SessionRetrieve session_id;
     Handler "handle_checkout_completed" expanded;
     Handler "handle_checkout_completed" (PDict session)]
  /\ response (handle_event event)
     = (if handle_checkout_completed (PDict session)
        then Return {| success := true;
                       processed_event_type := PStr "checkout.session.completed" |}
        else Raise (RuntimeError "handle_checkout_completed")).
Proof.
  intros Ht Hd Ho Hi Hs Hr Hh. unfold handle_event. cbn [subscript].
  rewrite Ht, Hd. cbn [lift io_bind app]. rewrite Ho.
  cbn [PyJWT.str_is String.eqb Ascii.eqb Bool.eqb].
  unfold on_checkout_completed, call_handler.
  cbn [get_method lift log emit io_bind app]. unfold dict_get_default.
  rewrite Hi, Hs, Hr. cbn [lift log emit io_bind app]. rewrite Hh.
  cbn [io_ret io_raise io_bind io_try app].
  destruct (handle_checkout_completed (PDict session)); split; reflexivity.
Qed.

End Dispatch.

(** ** Instances *)

Lemma verify_token_without_bearer_witness :
  @Security.verify_token (es256_platform []) 100 100 (NetworkError "down")
    (Some "Basic abc") fresh_world
  = (Raise (HTTPException 401 "Not authenticated"), fresh_world).
Proof.
  apply (@verify_token_without_bearer (es256_platform []) 100 100
           (NetworkError "down") (Some "Basic abc") fresh_world).
  intros h [= <-]. reflexivity.
Defined.

Lemma verify_token_jwks_unavailable_witness :
  @Security.verify_token (es256_platform []) 100 100 (NetworkError "down")
    (Some "Bearer abc") fresh_world
  = (Raise (HTTPException 503 "Could not fetch JWKS: down"),
     {| Security.jwks_cache := Security.initial_cache; Security.http_gets := 1 |}).
Proof.
  apply (@verify_token_jwks_unavailable (es256_platform []) 100 100
           (NetworkError "down") "Bearer abc" fresh_world "down").
  - reflexivity.
  - intros [H _]. discriminate H.
  - left. reflexivity.
Defined.

Lemma bearer_token_round_trip_witness :
  has_char " " "abc" = false
  /\ @Security.bearer_token (Some "Bearer abc") = Some "abc"
  /\ @Security.bearer_token (Some "Bearer abc def") = Some "abc".
Proof.
  split; [reflexivity|].
  exact (bearer_token_round_trip "abc" "def" eq_refl).
Defined.

Lemma bearer_token_has_no_blank_witness :
  Security.bearer_token (Some "Bearer abc def") = Some "abc"
  /\ has_char " " "abc" = false.
Proof.
  split; [reflexivity|].
  exact (bearer_token_has_no_blank (Some "Bearer abc def") "abc" eq_refl).
Defined.

Lemma find_signing_key_first_match_witness :
  @Security.find_signing_key (es256_platform []) "k2"
    [PDict [("kid", PStr "k1")];
     PDict [("kid", PStr "k2"); ("x", PStr "first")];
     PDict [("kid", PStr "k2"); ("x", PStr "second")]]
  = Return (Some (ECKey (PDict [("kid", PStr "k2"); ("x", PStr "first")]))).
Proof.
  apply (@find_signing_key_first_match (es256_platform []) "k2"
           [PDict [("kid", PStr "k1")]]
           (PDict [("kid", PStr "k2"); ("x", PStr "first")])
           [PDict [("kid", PStr "k2"); ("x", PStr "second")]]).
  - constructor; [|constructor]. exists (PStr "k1"). split; reflexivity.
  - reflexivity.
Defined.

Lemma verify_token_key_without_kid_witness :
  fst (@Security.verify_token
         (constant_platform [("alg", PStr "ES256"); ("kid", PStr "k2")] [] true None)
         100 100
         (BodyJson (PDict [("keys", PList [PDict [("kty", PStr "EC")];
                                           PDict [("kid", PStr "k2")]])]))
         (Some "Bearer abc") fresh_world)
  = Raise (KeyError "kid").
Proof.
  refine (f_equal fst (proj1
    (@verify_token_key_without_kid
       (constant_platform [("alg", PStr "ES256"); ("kid", PStr "k2")] [] true None)
       100 100
       (BodyJson (PDict [("keys", PList [PDict [("kty", PStr "EC")];
                                         PDict [("kid", PStr "k2")]])]))
       (Some "Bearer abc") fresh_world
       {| Security.jwks_cache :=
            {| Security.keys := PList [PDict [("kty", PStr "EC")];
                                       PDict [("kid", PStr "k2")]];
               Security.last_fetched := 100 |};
          Security.http_gets := 1 |}
       "abc" "k2" [("alg", PStr "ES256"); ("kid", PStr "k2")]
       [] [("kty", PStr "EC")] [PDict [("kid", PStr "k2")]]
       eq_refl eq_refl eq_refl eq_refl _ (Forall_nil _) eq_refl))).
  discriminate.
Defined.

Lemma require_admin_forbidden_witness :
  @DepsChain.require_admin (hs256_platform example_claims) example_settings 1000 "token"
  = Raise (HTTPException 403 "Admin access required").
Proof.
  refine (proj1 (@require_admin_forbidden (hs256_platform example_claims)
                   example_settings 1000 "token" example_claims eq_refl eq_refl _)).
  discriminate.
Defined.

Lemma validated_settings_pass_check_witness :
  Lifespan.check_security "https://project.supabase.co"
    "0123456789abcdef0123456789abcdef" "sb_publishable_0123456789abcdef"
  = Return tt
  /\ Lifespan.warnings
       (Lifespan.security_checks "https://project.supabase.co"
          "0123456789abcdef0123456789abcdef" "sb_publishable_0123456789abcdef") = [].
Proof.
  exact (validated_settings_pass_check "https://project.supabase.co"
           "0123456789abcdef0123456789abcdef" "sb_publishable_0123456789abcdef"
           eq_refl eq_refl eq_refl).
Defined.

Lemma sanitize_pattern_overrides_status_witness :
  ErrorSanitizer.sanitize "Invalid JWT" 404 = ErrorSanitizer.sanitize "Invalid JWT" 500
  /\ In (ErrorSanitizer.sanitize "Invalid JWT" 404)
        (map snd ErrorSanitizer.ERROR_MAPPINGS).
Proof.
  apply (sanitize_pattern_overrides_status "Invalid JWT" "jwt" 404 500).
  - do 9 right. left. reflexivity.
  - reflexivity.
Defined.

Lemma sanitize_token_before_expired_witness :
  contains "token" (lower "Token has expired") = true
  /\ ErrorSanitizer.sanitize "Token has expired" 401
     <> "Session expired - please login again".
Proof.
  split; [reflexivity|].
  exact (sanitize_token_before_expired "Token has expired" 401 eq_refl).
Defined.

Lemma missing_subject_response_witness :
  exists e exc,
    @Deps.get_current_user (hs256_platform [("aud", PStr "authenticated")])
      example_settings 1000 "token" = Raise e
    /\ as_describo e = Some exc
    /\ ErrorSanitizer.Describo_exception_handler exc "e-1"
       = {| ErrorSanitizer.response_code := 401;
            ErrorSanitizer.content := [("success", PBool false);
                                       ("error", PStr "Authentication failed");
                                       ("status_code", PInt 401);
                                       ("error_id", PStr "e-1")] |}.
Proof.
  exact (@missing_subject_response (hs256_platform [("aud", PStr "authenticated")])
           example_settings 1000 "token" [("aud", PStr "authenticated")] "e-1"
           eq_refl eq_refl).
Defined.



Lemma invalid_plan_is_reported_as_500_witness :
  Billing.create_checkout_session None None (Raise (RuntimeError "no database"))
    (fun _ _ _ _ _ => Return (PStr "cus_1")) (fun _ => Return (PStr "https://checkout"))
    "describo.com" "pro" None None (PDict [("user_id", PStr "u1")]) "jwt"
  = Raise (HTTPException 500
             "400: Invalid plan. Must be one of: pro_hac_vice, covenant, force_majeure").
Proof.
  apply (invalid_plan_is_reported_as_500 None None (Raise (RuntimeError "no database"))
           (fun _ _ _ _ _ => Return (PStr "cus_1"))
           (fun _ => Return (PStr "https://checkout"))
           "describo.com" "pro" None None [("user_id", PStr "u1")] "jwt" (PStr "u1"));
    [reflexivity|discriminate|discriminate|discriminate].
Defined.

Lemma no_dispatch_without_verification_witness :
  exists sig_header secret event,
    Some example_signature_header = Some sig_header
    /\ STRIPE_WEBHOOK_SECRET example_settings = Value (Some secret)
    /\ @Stripe.construct_event event_platform "{}" sig_header secret 1200 = Return event.
Proof.
  apply (@no_dispatch_without_verification event_platform example_settings 1200 1200
           "{}" (Some example_signature_header)).
  vm_compute. reflexivity.
Defined.

Lemma unhandled_event_type_is_acknowledged_witness :
  calls (Webhooks.trace
           (@Webhooks.handle_event event_platform
              [("type", PStr "customer.created"); ("data", PDict [("object", PDict [])])]))
  = []
  /\ Webhooks.response
       (@Webhooks.handle_event event_platform
          [("type", PStr "customer.created"); ("data", PDict [("object", PDict [])])])
     = Return {| Webhooks.success := true;
                 Webhooks.processed_event_type := PStr "customer.created" |}.
Proof.
  exact (@unhandled_event_type_is_acknowledged event_platform
           [("type", PStr "customer.created"); ("data", PDict [("object", PDict [])])]
           (PStr "customer.created") (PDict [("object", PDict [])]) (PDict [])
           eq_refl eq_refl eq_refl eq_refl eq_refl eq_refl eq_refl).
Defined.

Lemma subscription_deleted_runs_update_handler_witness :
  calls (Webhooks.trace
           (@Webhooks.handle_event event_platform
              [("type", PStr "customer.subscription.deleted");
               ("data", PDict [("object", PDict [("id", PStr "sub_1")])])]))
  = [Webhooks.Handler "handle_subscription_updated" (PDict [("id", PStr "sub_1")])].
Proof.
  exact (proj1 (@subscription_deleted_runs_update_handler event_platform
                  [("type", PStr "customer.subscription.deleted");
                   ("data", PDict [("object", PDict [("id", PStr "sub_1")])])]
                  (PDict [("object", PDict [("id", PStr "sub_1")])])
                  [("id", PStr "sub_1")] eq_refl eq_refl eq_refl)).
Defined.

Lemma checkout_handler_runs_twice_witness :
  calls (Webhooks.trace
           (@Webhooks.handle_event retrieving_platform
              [("type", PStr "checkout.session.completed");
               ("data", PDict [("object", PDict [("id", PStr "cs_1")])])]))
  = [Webhooks.SessionRetrieve (PStr "cs_1");
     Webhooks.Handler "handle_checkout_completed"
       (PDict [("id", PStr "cs_1"); ("line_items", PDict [])]);
     Webhooks.Handler "handle_checkout_completed" (PDict [("id", PStr "cs_1")])].
Proof.
  exact (proj1 (@checkout_handler_runs_twice retrieving_platform
                  [("type", PStr "checkout.session.completed");
                   ("data", PDict [("object", PDict [("id", PStr "cs_1")])])]
                  (PDict [("object", PDict [("id", PStr "cs_1")])])
                  [("id", PStr "cs_1")] (PStr "cs_1")
                  (PDict [("id", PStr "cs_1"); ("line_items", PDict [])])
                  eq_refl eq_refl eq_refl eq_refl eq_refl eq_refl eq_refl)).
Defined.
